(** * graphql_django_dataloader: batch functions, loader wiring and the Neo4j DAO

  A shallow embedding of the Python sources of the four demo stacks
  (ariadne, graphene, strawberry, graphdb).  Python dicts are stdpp
  [gmap]s, Python lists are Rocq lists, [None] is [option]'s [None],
  raised exceptions are the left injection of a sum. *)

From stdpp Require Import base option list gmap strings fin_maps pretty.
From Stdlib Require Import ZArith.

Local Open Scope Z_scope.
Local Open Scope string_scope.
Local Open Scope list_scope.

(** ** Python helpers shared by all variants *)

Module Py.

(** Truthiness of a value that is either [None] or a [str]. *)
Definition truthy_str (v : option string) : bool :=
  match v with
  | None => false
  | Some s => negb (String.eqb s "")
  end.

(** [a or b] on such values: [a] when truthy, otherwise [b]. *)
Definition or_str (a b : option string) : option string :=
  if truthy_str a then a else b.

(** [d[k].append(v)] on a [defaultdict(list)]: a missing key is first
    bound to the empty list. *)
Definition defaultdict_append `{Countable K} {V}
    (d : gmap K (list V)) (k : K) (v : V) : gmap K (list V) :=
  <[k := default [] (d !! k) ++ [v]]> d.

(** [dict(d)]: the same bindings, without the default factory. *)
Definition dict `{Countable K} {V} (d : gmap K V) : gmap K V := d.

(** [d.get(k, dflt)]: never inserts, also on a [defaultdict]. *)
Definition get_default `{Countable K} {V} (d : gmap K V) (k : K) (dflt : V) : V :=
  default dflt (d !! k).

(** [d.get(k)]: [None] when the key is missing. *)
Definition get `{Countable K} {V} (d : gmap K V) (k : K) : option V := d !! k.

(** [d[k] = v]. *)
Definition setitem `{Countable K} {V} (d : gmap K V) (k : K) (v : V) : gmap K V :=
  <[k := v]> d.

(** [a or b] where [a] is [None] or an instance of a class that defines
    neither [__bool__] nor [__len__] (always truthy). *)
Definition or_obj {A} (a : option A) (b : A) : A :=
  match a with
  | Some x => x
  | None => b
  end.

End Py.

(** ** What a batch function owes its caller *)

Section contract.
Context `{EqDecision K} {R V : Type}.

(** Rows of [rows] filed under [k], in the order of [rows]. *)
Definition rows_for (key : R → K) (rows : list R) (k : K) : list R :=
  filter (λ r, key r = k) rows.

(** The value the last row filed under [k] carries, if any. *)
Definition last_for (key : R → K) (val : R → V) (rows : list R) (k : K) : option V :=
  val <$> last (rows_for key rows k).

(** [res] answers [keys] position by position: same length, and slot [i]
    holds [result_for] of [keys[i]]. *)
Definition answers (result_for : K → V) (keys : list K) (res : list V) : Prop :=
  length res = length keys ∧ ∀ i : nat, res !! i = result_for <$> keys !! i.

End contract.

(** ** Python list objects

    The batch functions receive their key list by reference and build new
    lists, some of which they append to.  This module is the object-level
    view: a store of list objects by identity.  A computation over the store
    yields [None] only when it uses an object as a list of the wrong kind. *)

Module Obj.

Definition loc : Type := positive.

(** A list object, by what it holds: keys, rows (reviews), references to
    other list objects, or optional authors. *)
Inductive list_obj (K R U : Type) :=
  | Keys (keys : list K)
  | Rows (rows : list R)
  | Lists (items : list loc)
  | Authors (authors : list (option U)).
Arguments Keys {K R U} keys.
Arguments Rows {K R U} rows.
Arguments Lists {K R U} items.
Arguments Authors {K R U} authors.

Section heap.
Context `{Countable K} {R U : Type}.
Abbreviation heap := (gmap loc (list_obj K R U)).

(** A new list object. *)
Definition alloc (o : list_obj K R U) (h : heap) : loc * heap :=
  let l := fresh (dom h) in (l, <[l := o]> h).

(** Iterating over the key list [keys] refers to. *)
Definition read_keys (keys : loc) (h : heap) : option (list K) :=
  match h !! keys with
  | Some (Keys ks) => Some ks
  | _ => None
  end.

(** [l.append(r)], in place. *)
Definition append (l : loc) (r : R) (h : heap) : option heap :=
  match h !! l with
  | Some (Rows rows) => Some (<[l := Rows (rows ++ [r])]> h)
  | _ => None
  end.

(** [d[k].append(r)] on a [defaultdict(list)]: a missing key is first bound
    to a new empty list. *)
Definition defaultdict_append (d : gmap K loc) (k : K) (r : R) (h : heap)
    : option (gmap K loc * heap) :=
  match d !! k with
  | Some l => h ← append l r h; Some (d, h)
  | None =>
      let '(l, h) := alloc (Rows []) h in
      h ← append l r h; Some (<[k := l]> d, h)
  end.

(** [for r in rows: d[key(r)].append(r)]. *)
Fixpoint group (key : R → K) (rows : list R) (d : gmap K loc) (h : heap)
    : option (gmap K loc * heap) :=
  match rows with
  | [] => Some (d, h)
  | r :: rows =>
      '(d, h) ← defaultdict_append d (key r) r h;
      group key rows d h
  end.

(** [[d.get(pk, []) for pk in keys]]: the default [[]] is a new list object
    at every iteration, used or not. *)
Fixpoint collect (d : gmap K loc) (keys : list K) (h : heap) : list loc * heap :=
  match keys with
  | [] => ([], h)
  | pk :: keys =>
      let '(dflt, h) := alloc (Rows []) h in
      let item := Py.get_default d pk dflt in
      let '(items, h) := collect d keys h in
      (item :: items, h)
  end.

(** The value of a list of rows, of a list of lists of rows, and of a list
    of authors. *)
Definition read_rows (h : heap) (l : loc) : option (list R) :=
  match h !! l with
  | Some (Rows rows) => Some rows
  | _ => None
  end.

Definition read_lists (h : heap) (l : loc) : option (list (list R)) :=
  match h !! l with
  | Some (Lists items) => mapM (read_rows h) items
  | _ => None
  end.

Definition read_authors (h : heap) (l : loc) : option (list (option U)) :=
  match h !! l with
  | Some (Authors authors) => Some authors
  | _ => None
  end.

(** [h'] still holds every object of [h], unchanged. *)
Definition frame (h h' : heap) : Prop :=
  ∀ l, is_Some (h !! l) → h' !! l = h !! l.

(** [run] returns a new object whose value is [value], and leaves the
    object [keys] refers to as it was. *)
Definition returns_leaving {A} (run : heap → option (loc * heap))
    (read : heap → loc → option A) (keys : loc) (value : A) (h : heap) : Prop :=
  ∃ l h', run h = Some (l, h') ∧ h' !! keys = h !! keys ∧ read h' l = Some value.

(** What the grouping loop keeps true after the rows [acc]: the objects of
    the initial store [h0] are untouched, and the dict binds exactly the
    keys seen, each to its own new list holding the rows filed under it. *)
Record group_inv (key : R → K) (h0 : heap) (acc : list R)
    (d : gmap K loc) (h : heap) : Prop := {
  gi_frame : frame h0 h;
  gi_some : ∀ k l, d !! k = Some l →
            h0 !! l = None ∧ h !! l = Some (Rows (rows_for key acc k));
  gi_none : ∀ k, d !! k = None → rows_for key acc k = [];
  gi_inj : ∀ k1 k2 l, d !! k1 = Some l → d !! k2 = Some l → k1 = k2
}.

End heap.

End Obj.

(** ** myapp/models.py (Django variants) *)

Module Django.

(** [django.contrib.auth.models.User], the fields the resolvers read. *)
Record User := mkUser {
  User_id : Z;
  User_username : string;
  User_email : option string
}.

(** [myapp.models.Review]; [Review_user] is the row joined by
    [select_related("user")] / the foreign-key access [review.user]. *)
Record Review := mkReview {
  Review_id : Z;
  Review_business_id : Z;
  Review_user : User;
  Review_rating : Z;
  Review_comment : string
}.

#[global] Instance User_eq_dec : EqDecision User.
Proof. solve_decision. Defined.
#[global] Instance Review_eq_dec : EqDecision Review.
Proof. solve_decision. Defined.

(** The ORM manager [Review.objects] seen through the two querysets the
    batch functions evaluate.  The storage engine is an external
    collaborator: each field is the list of rows the evaluated queryset
    yields for the given key list. *)
Record ReviewManager := mkReviewManager {
  (** [Review.objects.filter(business_id__in=keys)] *)
  filter_business_id__in : list Z -> list Review;
  (** [Review.objects.filter(id__in=keys).select_related("user")] *)
  filter_id__in : list Z -> list Review
}.

(** A manager over an in-memory table, rows in storage order. *)
Definition table_objects (rows : list Review) : ReviewManager :=
  {| filter_business_id__in keys := filter (λ r, Review_business_id r ∈ keys) rows;
     filter_id__in keys := filter (λ r, Review_id r ∈ keys) rows |}.

(** The author comprehension over the keys read second, from the dict
    built from the keys read first. *)
Definition authors_of (objects : ReviewManager) (ks ks' : list Z)
    : list (option User) :=
  (λ pk, Py.get (foldl (λ d r, Py.setitem d (Review_id r) (Review_user r))
                       (∅ : gmap Z User) (filter_id__in objects ks)) pk) <$> ks'.

End Django.

(** ** The loader the variants import (graphql_sync_dataloaders) *)

Module SyncDataLoader.

(** Modelled from the spec: the error taxonomy of section 7 for the class
    [SyncDataLoader], which the variants import from the package
    graphql_sync_dataloaders and whose source is not under src/. *)
Inductive LoaderError :=
  | BatchContractViolation
  | BackendFailure.

(** Modelled from the spec: the Result of section 3 for the absent
    [SyncDataLoader]: a value, the explicit not-found value, or an error. *)
Inductive Result (V : Type) :=
  | Value (v : V)
  | KeyNotFound
  | Failed (e : LoaderError).
Arguments Value {V} v.
Arguments KeyNotFound {V}.
Arguments Failed {V} e.

(** Modelled from the spec: what one call of a batch function comes back
    with (sections 6 and 7) for the absent [SyncDataLoader]: a sequence of
    values and "missing" markers ([None]), or a failure of the whole call. *)
Inductive BatchOutcome (V : Type) :=
  | Returned (values : list (option V))
  | Raised.
Arguments Returned {V} values.
Arguments Raised {V}.

(** Modelled from the spec: the pending result handle of section 3 for the
    absent [SyncDataLoader], named by the order of its creation. *)
Definition handle : Type := nat.

(** Modelled from the spec: the Loader of sections 3 and 4.1 (the absent
    class [SyncDataLoader]): its batch function, the window cache from key
    to handle, the keys awaiting the next flush in insertion order, and the
    state of every handle ([None] while pending). *)
Record Loader (K : Type) `{Countable K} (V : Type) := mkLoader {
  batch_load_fn : list K → BatchOutcome V;
  cache : gmap K handle;
  queue : list K;
  handles : list (option (Result V))
}.
Arguments mkLoader {K _ _ V}.
Arguments batch_load_fn {K _ _ V}.
Arguments cache {K _ _ V}.
Arguments queue {K _ _ V}.
Arguments handles {K _ _ V}.

(** Modelled from the spec: one step of a window (section 4.2) for the
    absent [SyncDataLoader]: a resolver calls [load], or the scheduling
    trigger fires a flush. *)
Inductive event (K : Type) :=
  | Load (key : K)
  | Flush.
Arguments Load {K} key.
Arguments Flush {K}.

Section loader.
Context `{Countable K} {V : Type}.

(** Modelled from the spec: construction of a Loader at window start
    (section 3, lifecycle) for the absent [SyncDataLoader]: cache and
    pending keys empty. *)
Definition SyncDataLoader (batch_load_fn : list K → BatchOutcome V) : Loader K V :=
  mkLoader batch_load_fn ∅ [] [].

(** Modelled from the spec: [load(key)] of section 4.1 for the absent
    [SyncDataLoader]: a cached key gets its existing handle and no new
    work; otherwise a new pending handle is cached under the key and the
    key joins the keys awaiting the next flush. *)
Definition load (key : K) (self : Loader K V) : handle * Loader K V :=
  match cache self !! key with
  | Some h => (h, self)
  | None =>
      let h := length (handles self) in
      (h, mkLoader (batch_load_fn self)
                   (<[key := h]> (cache self))
                   (queue self ++ [key])
                   (handles self ++ [None]))
  end.

(** Modelled from the spec: [load_many(keys)] of section 4.1 for the absent
    [SyncDataLoader]: [load] per key, in order. *)
Fixpoint load_many (keys : list K) (self : Loader K V) : list handle * Loader K V :=
  match keys with
  | [] => ([], self)
  | key :: keys =>
      let '(h, self) := load key self in
      let '(hs, self) := load_many keys self in
      (h :: hs, self)
  end.

(** Modelled from the spec: the results one flush delivers, by position
    (sections 4.1 and 7), for the absent [SyncDataLoader]: a failed call
    gives every key [BackendFailure], a result sequence of the wrong length
    gives every key [BatchContractViolation], and otherwise slot [i]
    answers key [i], a "missing" marker as [KeyNotFound]. *)
Definition batch_results (keys : list K) (outcome : BatchOutcome V) : list (Result V) :=
  match outcome with
  | Raised => replicate (length keys) (Failed BackendFailure)
  | Returned values =>
      if decide (length values = length keys)
      then (λ v, match v with Some v => Value v | None => KeyNotFound end) <$> values
      else replicate (length keys) (Failed BatchContractViolation)
  end.

(** Modelled from the spec: resolution of the handle cached for a key
    (section 4.1) for the absent [SyncDataLoader]. *)
Definition resolve (cache : gmap K handle) (handles : list (option (Result V)))
    (answer : K * Result V) : list (option (Result V)) :=
  match cache !! answer.1 with
  | Some h => <[h := Some answer.2]> handles
  | None => handles
  end.

(** Modelled from the spec: the internal [flush()] of section 4.1 for the
    absent [SyncDataLoader]: take and clear the pending keys, call the
    batch function once with them, resolve the handles by position.  An
    idle loader has nothing to flush and makes no call (section 4.2).  The
    second component is the key list the batch function was called with. *)
Definition flush (self : Loader K V) : Loader K V * option (list K) :=
  match queue self with
  | [] => (self, None)
  | keys =>
      let results := batch_results keys (batch_load_fn self keys) in
      (mkLoader (batch_load_fn self) (cache self) []
                (foldl (resolve (cache self)) (handles self) (zip keys results)),
       Some keys)
  end.

(** Modelled from the spec: one event of a window (section 4.2) applied to
    the absent [SyncDataLoader]; the second component collects the key
    lists the batch function was called with, in call order. *)
Definition step (w : Loader K V * list (list K)) (e : event K)
    : Loader K V * list (list K) :=
  match e with
  | Load key => ((load key w.1).2, w.2)
  | Flush =>
      match flush w.1 with
      | (self, Some keys) => (self, w.2 ++ [keys])
      | (self, None) => (self, w.2)
      end
  end.

(** Modelled from the spec: a window (sections 3 and 4.2) of the absent
    [SyncDataLoader]: the loader after the events, and the key lists the
    batch function was called with. *)
Definition run_window (events : list (event K)) (self : Loader K V)
    : Loader K V * list (list K) :=
  foldl step (self, []) events.

(** The keys of the [load] calls of a window, in call order. *)
Definition requested (events : list (event K)) : list K :=
  omap (λ e, match e with Load key => Some key | Flush => None end) events.

(** The distinct keys of [keys], each at the place of its first
    occurrence. *)
Fixpoint first_occurrences (keys : list K) : list K :=
  match keys with
  | [] => []
  | key :: keys => key :: filter (λ k, k ≠ key) (first_occurrences keys)
  end.

(** What a window keeps true: the keys sent so far followed by the pending
    keys are the first occurrences of the requested keys, and the cache
    knows exactly the requested keys. *)
Definition window_inv (events : list (event K)) (w : Loader K V * list (list K)) : Prop :=
  concat w.2 ++ queue w.1 = first_occurrences (requested events) ∧
  ∀ k, is_Some (cache w.1 !! k) ↔ k ∈ requested events.

End loader.

End SyncDataLoader.

(** ** ariadne/main/schema.py *)

Module Ariadne.
Import Django.

Definition USE_DATALOADERS : bool := false.

Definition resolve_user_email (user : User) : option string :=
  Py.or_str (User_email user) (Some "").

Definition get_reviews_for_businesses (objects : ReviewManager)
    (business_ids : list Z) : list (list Review) :=
  let reviews_by_business_id :=
    foldl (λ d review, Py.defaultdict_append d (Review_business_id review) review)
          (∅ : gmap Z (list Review))
          (filter_business_id__in objects business_ids) in
  let reviews_by_business_id := Py.dict reviews_by_business_id in
  (λ business_id, Py.get_default reviews_by_business_id business_id []) <$> business_ids.

Definition get_authors_for_reviews (objects : ReviewManager)
    (review_ids : list Z) : list (option User) :=
  let authors_by_review_id :=
    foldl (λ d review, Py.setitem d (Review_id review) (Review_user review))
          (∅ : gmap Z User)
          (filter_id__in objects review_ids) in
  (λ review_id, Py.get authors_by_review_id review_id) <$> review_ids.

(** The two batch functions over list objects: [business_ids] and
    [review_ids] are references, the result is a new list object. *)
Definition get_reviews_for_businesses_obj (objects : ReviewManager)
    (business_ids : Obj.loc) (h : gmap Obj.loc (Obj.list_obj Z Review User))
    : option (Obj.loc * gmap Obj.loc (Obj.list_obj Z Review User)) :=
  ids ← Obj.read_keys business_ids h;
  '(reviews_by_business_id, h) ←
    Obj.group Review_business_id (filter_business_id__in objects ids) ∅ h;
  let reviews_by_business_id := Py.dict reviews_by_business_id in
  ids ← Obj.read_keys business_ids h;
  let '(items, h) := Obj.collect reviews_by_business_id ids h in
  Some (Obj.alloc (Obj.Lists items) h).

Definition get_authors_for_reviews_obj (objects : ReviewManager)
    (review_ids : Obj.loc) (h : gmap Obj.loc (Obj.list_obj Z Review User))
    : option (Obj.loc * gmap Obj.loc (Obj.list_obj Z Review User)) :=
  ids ← Obj.read_keys review_ids h;
  let authors_by_review_id :=
    foldl (λ d review, Py.setitem d (Review_id review) (Review_user review))
          (∅ : gmap Z User)
          (filter_id__in objects ids) in
  ids ← Obj.read_keys review_ids h;
  Some (Obj.alloc
          (Obj.Authors ((λ review_id, Py.get authors_by_review_id review_id) <$> ids)) h).

End Ariadne.

(** ** graphene/main/schema.py *)

Module Graphene.
Import Django.

Definition USE_DATALOADERS : bool := true.

Definition review_author_data_loader (objects : ReviewManager)
    (keys : list Z) : list (option User) :=
  let reviews := filter_id__in objects keys in
  (* {r.id: r.user for r in reviews}: a later row overrides an earlier one *)
  let review_author_by_review_id :=
    foldl (λ d r, Py.setitem d (Review_id r) (Review_user r)) (∅ : gmap Z User) reviews in
  (λ pk, Py.get review_author_by_review_id pk) <$> keys.

Definition business_review_data_loader (objects : ReviewManager)
    (keys : list Z) : list (list Review) :=
  let reviews := filter_business_id__in objects keys in
  let review_by_business_id :=
    foldl (λ d r, Py.defaultdict_append d (Review_business_id r) r)
          (∅ : gmap Z (list Review)) reviews in
  (λ pk, Py.get_default review_by_business_id pk []) <$> keys.

(** The two batch functions over list objects: [keys] is a reference, the
    result is a new list object. *)
Definition review_author_data_loader_obj (objects : ReviewManager)
    (keys : Obj.loc) (h : gmap Obj.loc (Obj.list_obj Z Review User))
    : option (Obj.loc * gmap Obj.loc (Obj.list_obj Z Review User)) :=
  ks ← Obj.read_keys keys h;
  let reviews := filter_id__in objects ks in
  let review_author_by_review_id :=
    foldl (λ d r, Py.setitem d (Review_id r) (Review_user r)) (∅ : gmap Z User) reviews in
  ks ← Obj.read_keys keys h;
  Some (Obj.alloc
          (Obj.Authors ((λ pk, Py.get review_author_by_review_id pk) <$> ks)) h).

Definition business_review_data_loader_obj (objects : ReviewManager)
    (keys : Obj.loc) (h : gmap Obj.loc (Obj.list_obj Z Review User))
    : option (Obj.loc * gmap Obj.loc (Obj.list_obj Z Review User)) :=
  ks ← Obj.read_keys keys h;
  let reviews := filter_business_id__in objects ks in
  '(review_by_business_id, h) ← Obj.group Review_business_id reviews ∅ h;
  ks ← Obj.read_keys keys h;
  let '(items, h) := Obj.collect review_by_business_id ks h in
  Some (Obj.alloc (Obj.Lists items) h).

(** *** The middleware and the request context *)

(** A loader object as the middleware creates it: [SyncDataLoader] over one
    of the two batch functions. *)
Inductive LoaderObj :=
  | BusinessReviewLoader (l : SyncDataLoader.Loader Z (list Review))
  | ReviewAuthorLoader (l : SyncDataLoader.Loader Z User).

(** The batch functions as a loader calls them: every slot of
    [business_review_data_loader] is a value, a [None] slot of
    [review_author_data_loader] marks a missing key. *)
Definition business_review_batch (objects : ReviewManager) (keys : list Z)
    : SyncDataLoader.BatchOutcome (list Review) :=
  SyncDataLoader.Returned (Some <$> business_review_data_loader objects keys).

Definition review_author_batch (objects : ReviewManager) (keys : list Z)
    : SyncDataLoader.BatchOutcome User :=
  SyncDataLoader.Returned (review_author_data_loader objects keys).

(** Object identities. *)
Definition loc : Type := positive.

(** The request object [info.context], seen through the one attribute the
    schema touches: [data_loaders] is absent ([None]) on a fresh request and
    otherwise holds a dict from names to loader objects. *)
Record Context := mkContext {
  data_loaders : option (gmap string loc)
}.

Definition hasattr_data_loaders (context : Context) : bool :=
  match data_loaders context with
  | Some _ => true
  | None => false
  end.

(** What one request owns: its context and the loader objects created for
    it, by identity. *)
Record Env := mkEnv {
  context : Context;
  loader_store : gmap loc LoaderObj
}.

(** The assignment [info.context.data_loaders = {...}]: the dict literal
    builds the two loaders in source order. *)
Definition install (objects : ReviewManager) (env : Env) : Env :=
  let l1 := fresh (dom (loader_store env)) in
  let store :=
    <[l1 := BusinessReviewLoader
              (SyncDataLoader.SyncDataLoader (business_review_batch objects))]>
      (loader_store env) in
  let l2 := fresh (dom store) in
  let store :=
    <[l2 := ReviewAuthorLoader
              (SyncDataLoader.SyncDataLoader (review_author_batch objects))]> store in
  mkEnv (mkContext (Some {[ "business_review" := l1; "review_author" := l2 ]})) store.

(** [data_loader_middleware(next, root, info, **args)]; [info.context] is
    the context of the environment the call runs in. *)
Definition data_loader_middleware {Root Args R : Type} (objects : ReviewManager)
    (next : Root → Args → Env → R * Env) (root : Root) (args : Args)
    : Env → R * Env := λ env,
  let env :=
    if USE_DATALOADERS then
      if negb (hasattr_data_loaders (context env)) then install objects env else env
    else env in
  next root args env.

(** What [ReviewType.resolve_author] returns: the handle of a load, or the
    user itself when loaders are off; [None] when the lookup of the loader
    raises. *)
Definition resolve_author (root : Review) (args : unit)
    : Env → option (SyncDataLoader.handle + User) * Env := λ env,
  if USE_DATALOADERS then
    match data_loaders (context env) with
    | None => (None, env)
    | Some loaders =>
        match loaders !! "review_author" with
        | None => (None, env)
        | Some l =>
            match loader_store env !! l with
            | Some (ReviewAuthorLoader loader) =>
                let '(h, loader) := SyncDataLoader.load (Review_id root) loader in
                (Some (inl h),
                 mkEnv (context env) (<[l := ReviewAuthorLoader loader]> (loader_store env)))
            | _ => (None, env)
            end
        end
    end
  else (Some (inr (Review_user root)), env).

(** The environment after a run of middleware invocations, one per
    resolved field. *)
Definition run_middleware {Root Args R : Type} (objects : ReviewManager)
    (invocations : list ((Root → Args → Env → R * Env) * Root * Args))
    (env : Env) : Env :=
  foldl (λ env '(next, root, args),
           (data_loader_middleware objects next root args env).2)
        env invocations.

(** A resolver that leaves the attributes of the request object alone. *)
Definition keeps_context {Root Args R : Type}
    (next : Root → Args → Env → R * Env) : Prop :=
  ∀ root args env, context (next root args env).2 = context env.

End Graphene.

(** ** strawberry/main/schema.py *)

Module Strawberry.
Import Django.

Definition USE_DATALOADERS : bool := true.

Definition dataloader_business_reviews (objects : ReviewManager)
    (keys : list Z) : list (list Review) :=
  let reviews := filter_business_id__in objects keys in
  let review_by_business_id :=
    foldl (λ d r, Py.defaultdict_append d (Review_business_id r) r)
          (∅ : gmap Z (list Review)) reviews in
  (λ pk, Py.get_default review_by_business_id pk []) <$> keys.

Definition dataloader_review_author (objects : ReviewManager)
    (keys : list Z) : list (option User) :=
  let author_by_review_id :=
    foldl (λ d r, Py.setitem d (Review_id r) (Review_user r))
          (∅ : gmap Z User) (filter_id__in objects keys) in
  (λ key, Py.get author_by_review_id key) <$> keys.

(** The two batch functions over list objects: [keys] is a reference, the
    result is a new list object. *)
Definition dataloader_business_reviews_obj (objects : ReviewManager)
    (keys : Obj.loc) (h : gmap Obj.loc (Obj.list_obj Z Review User))
    : option (Obj.loc * gmap Obj.loc (Obj.list_obj Z Review User)) :=
  ks ← Obj.read_keys keys h;
  let reviews := filter_business_id__in objects ks in
  '(review_by_business_id, h) ← Obj.group Review_business_id reviews ∅ h;
  ks ← Obj.read_keys keys h;
  let '(items, h) := Obj.collect review_by_business_id ks h in
  Some (Obj.alloc (Obj.Lists items) h).

Definition dataloader_review_author_obj (objects : ReviewManager)
    (keys : Obj.loc) (h : gmap Obj.loc (Obj.list_obj Z Review User))
    : option (Obj.loc * gmap Obj.loc (Obj.list_obj Z Review User)) :=
  ks ← Obj.read_keys keys h;
  let author_by_review_id :=
    foldl (λ d r, Py.setitem d (Review_id r) (Review_user r))
          (∅ : gmap Z User) (filter_id__in objects ks) in
  ks ← Obj.read_keys keys h;
  Some (Obj.alloc (Obj.Authors ((λ key, Py.get author_by_review_id key) <$> ks)) h).

End Strawberry.

(** ** graphdb/myapp/services/neo4j.py *)

Module Neo4j.

(** Values carried by node and relationship properties, query parameters
    and dataclass fields. *)
Inductive PyVal :=
  | VNone
  | VInt (z : Z)
  | VStr (s : string).

#[global] Instance PyVal_eq_dec : EqDecision PyVal.
Proof. solve_decision. Defined.

#[global] Instance PyVal_countable : Countable PyVal.
Proof.
  apply (inj_countable'
    (λ v, match v with
          | VNone => inl ()
          | VInt z => inr (inl z)
          | VStr s => inr (inr s)
          end)
    (λ x, match x with
          | inl _ => VNone
          | inr (inl z) => VInt z
          | inr (inr s) => VStr s
          end)).
  by intros [].
Defined.

(** Exceptions the module can raise. *)
Inductive exn :=
  | KeyError (key : string)
  | TypeError
  | AssertionError.

#[global] Instance exn_eq_dec : EqDecision exn.
Proof. solve_decision. Defined.

(** A computation that returns ([inr]) or raises ([inl]). *)
Definition result (A : Type) : Type := (exn + A)%type.

Definition raise {A} (e : exn) : result A := inl e.

#[global] Instance result_ret : MRet result := λ A a, inr a.
#[global] Instance result_bind : MBind result := λ A B f m,
  match m with
  | inl e => inl e
  | inr a => f a
  end.

(** [neo4j.graph.Node]: subscripting reads a property. *)
Record Node := mkNode {
  Node_element_id : string;
  Node_properties : gmap string PyVal
}.

(** [neo4j.graph.Relationship]; the end points are [Optional[Node]]. *)
Record Relationship := mkRelationship {
  element_id : string;
  Relationship_properties : gmap string PyVal;
  start_node : option Node;
  end_node : option Node
}.

(** [entity[key]] on a node or relationship: the driver's
    [Entity.__getitem__] is [self._properties.get(name)], so a missing
    property reads as [None] and nothing is raised. *)
Definition getitem (properties : gmap string PyVal) (key : string) : result PyVal :=
  mret (default VNone (properties !! key)).

(** [node[key]] where [node] may be [None]. *)
Definition subscript (node : option Node) (key : string) : result PyVal :=
  match node with
  | Some n => getitem (Node_properties n) key
  | None => raise TypeError
  end.

Record Business := mkBusiness {
  Business_id : PyVal;
  Business_name : PyVal;
  Business_description : PyVal
}.

Definition Business_from_node (node : option Node) : result Business :=
  id ← subscript node "externalID";
  name ← subscript node "name";
  description ← subscript node "description";
  mret (mkBusiness id name description).

Record User := mkUser {
  User_id : PyVal;
  User_name : PyVal;
  User_email : PyVal
}.

Definition User_from_node (node : option Node) : result User :=
  id ← subscript node "externalID";
  name ← subscript node "name";
  email ← subscript node "email";
  mret (mkUser id name email).

Record Review := mkReview {
  Review_id : PyVal;
  Review_rating : PyVal;
  Review_comment : PyVal;
  Review_author : User;
  Review_business : Business
}.

Definition Review_from_relationship (relationship : Relationship) : result Review :=
  let id := VStr (element_id relationship) in
  rating ← getitem (Relationship_properties relationship) "rating";
  comment ← getitem (Relationship_properties relationship) "comment";
  author ← User_from_node (start_node relationship);
  business ← Business_from_node (end_node relationship);
  mret (mkReview id rating comment author business).

Record Category := mkCategory {
  Category_name : PyVal;
  Category_description : PyVal
}.

#[global] Instance Node_eq_dec : EqDecision Node.
Proof. solve_decision. Defined.
#[global] Instance Relationship_eq_dec : EqDecision Relationship.
Proof. solve_decision. Defined.
#[global] Instance Business_eq_dec : EqDecision Business.
Proof. solve_decision. Defined.
#[global] Instance User_eq_dec : EqDecision User.
Proof. solve_decision. Defined.
#[global] Instance Review_eq_dec : EqDecision Review.
Proof. solve_decision. Defined.

(** *** The service wrapper and its process-wide instance *)

(** [django.conf.settings], the three values the service reads. *)
Record Settings := mkSettings {
  NEO4J_URI : string;
  NEO4J_USERNAME : string;
  NEO4J_PASSWORD : string
}.

(** The object [GraphDatabase.driver(uri, auth=(user, password))] returns.
    Drivers are objects and are compared by identity: [Driver_ident] is the
    identity of the object, the other fields are what it was opened with.
    Two drivers opened on the same credentials are two drivers. *)
Record Driver := mkDriver {
  Driver_ident : nat;
  Driver_uri : option string;
  Driver_auth : option string * option string
}.

(** A service object holds the driver its [__init__] opened.  The class
    defines no [__eq__]; a service is known by its driver, as [__init__] is
    the only place that binds [self.driver] and opens a new one each time. *)
Record Neo4jService := mkNeo4jService {
  driver : Driver
}.

#[global] Instance Driver_eq_dec : EqDecision Driver.
Proof. solve_decision. Defined.
#[global] Instance Neo4jService_eq_dec : EqDecision Neo4jService.
Proof. solve_decision. Defined.

(** [GraphDatabase.driver(uri, auth=auth)] opens a new driver object;
    [next] is the first identity not yet given out, and the call hands back
    the next one. *)
Definition GraphDatabase_driver (uri : option string)
    (auth : option string * option string) (next : nat) : Driver * nat :=
  (mkDriver next uri auth, S next).

Definition Neo4jService_init (settings : Settings)
    (uri user password : option string) (next : nat) : Neo4jService * nat :=
  let uri := Py.or_str uri (Some (NEO4J_URI settings)) in
  let user := Py.or_str user (Some (NEO4J_USERNAME settings)) in
  let password := Py.or_str password (Some (NEO4J_PASSWORD settings)) in
  let opened := GraphDatabase_driver uri (user, password) next in
  ({| driver := opened.1 |}, opened.2).

(** The module-level global, built when the module is imported: the first
    driver the module opens. *)
Definition NEO4JSERVICE (settings : Settings) : Neo4jService :=
  (Neo4jService_init settings None None None 0).1.

(** A query parameter: a scalar or a list of scalars. *)
Inductive Param :=
  | PVal (v : PyVal)
  | PList (vs : list PyVal).

(** One row of a query result.  Cypher types its columns: a column is
    bound to a node or to a relationship. *)
Record Record_ := mkRecord {
  Record_nodes : gmap string Node;
  Record_relationships : gmap string Relationship
}.

(** [record[key]] for a node column and for a relationship column;
    [record] is what [Result.single()] returned and may be [None]. *)
Definition record_node (record : option Record_) (key : string) : result Node :=
  match record with
  | None => raise TypeError
  | Some r =>
      match Record_nodes r !! key with
      | Some n => mret n
      | None => raise (KeyError key)
      end
  end.

Definition record_relationship (record : option Record_) (key : string)
    : result Relationship :=
  match record with
  | None => raise TypeError
  | Some r =>
      match Record_relationships r !! key with
      | Some n => mret n
      | None => raise (KeyError key)
      end
  end.

(** [Result.single()]: the first record, [None] when there is none. *)
Definition single (records : list Record_) : option Record_ := head records.

Inductive AccessMode := READ | WRITE.

(** One use of a service object: which service ran which query. *)
Record Call := mkCall {
  call_service : Neo4jService;
  call_mode : AccessMode;
  call_query : string;
  call_params : option (list (string * Param))
}.

Section service.

(** The database servers, external collaborators: [tx_run] is what
    [tx.run(query, parameters=params)] yields on a transaction of the given
    driver, and the state the servers are left in when it commits. *)
Context {World : Type}.
Variable tx_run :
  Driver → AccessMode → string → option (list (string * Param)) →
  World → list Record_ * World.

(** State threaded through the module: the servers and the log of calls
    made on service objects. *)
Record St := mkSt {
  world : World;
  calls : list Call
}.

(** Effectful computations: state passing, with exceptions. *)
Definition M (A : Type) : Type := St → result A * St.

#[global] Instance M_ret : MRet M := λ A a st, (inr a, st).
#[global] Instance M_bind : MBind M := λ A B f m st,
  match m st with
  | (inl e, st') => (inl e, st')
  | (inr a, st') => f a st'
  end.

(** [Neo4jService.session_read]; the value is what [result_consumer]
    stored for its caller ([None] without a consumer). *)
Definition session_read {A} (self : Neo4jService) (query : string)
    (result_consumer : option (list Record_ → result A))
    (params : option (list (string * Param))) : M (option A) := λ st,
  let '(records, w) := tx_run (driver self) READ query params (world st) in
  let log := calls st ++ [mkCall self READ query params] in
  match result_consumer with
  | Some consume =>
      match consume records with
      | inl e => (inl e, mkSt (world st) log)
      | inr a => (inr (Some a), mkSt w log)
      end
  | None => (inr None, mkSt w log)
  end.

(** [Neo4jService.session_write]; a raising consumer rolls the
    transaction back. *)
Definition session_write {A} (self : Neo4jService) (query : string)
    (result_consumer : option (list Record_ → result A))
    (params : option (list (string * Param))) : M (option A) := λ st,
  let '(records, w) := tx_run (driver self) WRITE query params (world st) in
  let log := calls st ++ [mkCall self WRITE query params] in
  match result_consumer with
  | Some consume =>
      match consume records with
      | inl e => (inl e, mkSt (world st) log)
      | inr a => (inr (Some a), mkSt w log)
      end
  | None => (inr None, mkSt w log)
  end.

(** [assert x] for a local that is [None] until the consumer has run. *)
Definition assert_set {A} (x : option A) : M A := λ st,
  match x with
  | Some a => (inr a, st)
  | None => (inl AssertionError, st)
  end.

(** *** The data access object *)

Variable settings : Settings.

Record Neo4jDAO := mkNeo4jDAO {
  service : Neo4jService
}.

Definition Neo4jDAO_init (service : option Neo4jService) : Neo4jDAO :=
  {| service := Py.or_obj service (NEO4JSERVICE settings) |}.

(** [django.contrib.auth.models.User] as [upsert_user] reads it. *)
Record DjangoUser := mkDjangoUser {
  DjangoUser_pk : Z;
  DjangoUser_email : PyVal;
  (** the value of [get_full_name()] *)
  DjangoUser_full_name : string
}.

Definition upsert_user (self : Neo4jDAO) (user : DjangoUser) : M User :=
  neo4j_user ← session_write (service self)
    "MERGE (u:User {externalID: $externalID}) ON CREATE SET u.name = $name, u.email = $email RETURN u"
    (Some (λ result,
       let record := single result in
       u ← record_node record "u";
       User_from_node (Some u)))
    (Some [("name", PVal (VStr (DjangoUser_full_name user)));
           ("email", PVal (DjangoUser_email user));
           ("externalID", PVal (VStr (pretty (DjangoUser_pk user))))]);
  assert_set neo4j_user.

Definition upsert_business (self : Neo4jDAO)
    (external_id name description : string) : M Business :=
  business ← session_write (service self)
    "MERGE (b:Business {externalID: $externalID}) ON CREATE SET b.name = $name, b.description = $description RETURN b"
    (Some (λ result,
       let record := single result in
       b ← record_node record "b";
       Business_from_node (Some b)))
    (Some [("externalID", PVal (VStr external_id));
           ("name", PVal (VStr name));
           ("description", PVal (VStr description))]);
  assert_set business.

Definition upsert_category (self : Neo4jDAO) (name description : string) : M Category :=
  category ← session_write (service self)
    "MERGE (c:Category {name: $name}) ON CREATE SET c.description = $description RETURN c"
    (Some (λ result,
       let record := single result in
       category_node ← record_node record "c";
       name ← getitem (Node_properties category_node) "name";
       description ← getitem (Node_properties category_node) "description";
       mret (mkCategory name description)))
    (Some [("name", PVal (VStr name)); ("description", PVal (VStr description))]);
  assert_set category.

Definition upsert_business_category (self : Neo4jDAO)
    (business : Business) (category : Category) : M unit :=
  _ ← session_write (A := unit) (service self)
    "MATCH (b:Business {externalID: $businessID}), (c:Category {name: $categoryName}) MERGE (b)-[:IN_CATEGORY]->(c)"
    None
    (Some [("businessID", PVal (Business_id business));
           ("categoryName", PVal (Category_name category))]);
  mret ().

Definition upsert_review (self : Neo4jDAO) (business : Business) (author : User)
    (rating : Z) (comment : string) : M Review :=
  review ← session_write (service self)
    "MATCH (b:Business {externalID: $businessID}), (u:User {externalID: $authorID}) MERGE (u)-[r:REVIEWED]->(b) ON CREATE SET r.rating = $rating, r.comment = $comment RETURN r, u"
    (Some (λ result,
       let record := single result in
       review_relationship ← record_relationship record "r";
       Review_from_relationship review_relationship))
    (Some [("businessID", PVal (Business_id business));
           ("authorID", PVal (User_id author));
           ("rating", PVal (VInt rating));
           ("comment", PVal (VStr comment))]);
  assert_set review.

(** [businesses.extend([...])]: the comprehension is built in full before
    the list is extended. *)
Definition get_businesses (self : Neo4jDAO) : M (list Business) :=
  businesses ← session_read (service self)
    "MATCH (b:Business) RETURN b"
    (Some (λ records,
       mapM (λ r, b ← record_node (Some r) "b"; Business_from_node (Some b)) records))
    None;
  mret (default [] businesses).

Definition get_reviews_of_businesses (self : Neo4jDAO)
    (business_ids : list PyVal) : M (list Review) :=
  reviews ← session_read (service self)
    "MATCH (b:Business)<-[r:REVIEWED]-(u:User) WHERE b.externalID in $ids RETURN b, r, u"
    (Some (λ records,
       mapM (λ r,
         review_relationship ← record_relationship (Some r) "r";
         Review_from_relationship review_relationship) records))
    (Some [("ids", PList business_ids)]);
  mret (default [] reviews).

(** The computation makes exactly one call on a service object, and that
    call is on [svc]. *)
Definition calls_only {A} (svc : Neo4jService) (m : M A) : Prop :=
  ∀ st, ∃ c, calls (m st).2 = calls st ++ [c] ∧ call_service c = svc.

End service.

End Neo4j.

(** ** graphdb/main/schema.py *)

Module Graphdb.
Import Neo4j.

Definition USE_DATALOADERS : bool := true.

Section schema.
Context {World : Type}.
Variable tx_run :
  Driver → AccessMode → string → option (list (string * Param)) →
  World → list Record_ * World.
Variable settings : Settings.

Definition dataloader_business_reviews (keys : list PyVal)
    : M (World := World) (list (list Review)) :=
  let dao := Neo4jDAO_init settings None in
  reviews ← get_reviews_of_businesses tx_run dao keys;
  let review_by_business_id :=
    foldl (λ d r, Py.defaultdict_append d (Business_id (Review_business r)) r)
          (∅ : gmap PyVal (list Review)) reviews in
  mret ((λ pk, Py.get_default review_by_business_id pk []) <$> keys).

(** The batch function over list objects: [keys] is a reference, and the
    result, unless the DAO read raises, is a new list object. *)
Definition dataloader_business_reviews_obj (keys : Obj.loc)
    (h : gmap Obj.loc (Obj.list_obj PyVal Review User)) (st : St (World := World))
    : option (result Obj.loc * gmap Obj.loc (Obj.list_obj PyVal Review User) * St) :=
  let dao := Neo4jDAO_init settings None in
  ks ← Obj.read_keys keys h;
  match get_reviews_of_businesses tx_run dao ks st with
  | (inl e, st) => Some (inl e, h, st)
  | (inr reviews, st) =>
      '(review_by_business_id, h) ←
        Obj.group (λ r, Business_id (Review_business r)) reviews ∅ h;
      ks ← Obj.read_keys keys h;
      let '(items, h) := Obj.collect review_by_business_id ks h in
      let '(l, h) := Obj.alloc (Obj.Lists items) h in
      Some (inr l, h, st)
  end.

(** [Query.businesses] *)
Definition businesses : M (World := World) (list Business) :=
  let dao := Neo4jDAO_init settings None in
  get_businesses tx_run dao.

End schema.

(** The batch function does not take its backend from ambient state:
    whatever process-wide settings, and so whatever [NEO4JSERVICE], are in
    force, it does the same. *)
Definition reads_no_global_backend {World : Type}
    (tx_run : Driver → AccessMode → string → option (list (string * Param)) →
              World → list Record_ * World) : Prop :=
  ∀ (settings settings' : Settings) (keys : list PyVal) (st : St),
    dataloader_business_reviews tx_run settings keys st
    = dataloader_business_reviews tx_run settings' keys st.

End Graphdb.

(** ** Sample data, after the seed_data commands *)

Module Demo.

Definition emma : Django.User := Django.mkUser 3 "emmaly" (Some "").
Definition van : Django.User := Django.mkUser 2 "vancly" (Some "van@example.com").
Definition root : Django.User := Django.mkUser 1 "root" None.

Definition rows : list Django.Review :=
  [ Django.mkReview 1 1 emma 5 "I love their clam chowder!";
    Django.mkReview 2 1 van 4 "Food is good but too expensive.";
    Django.mkReview 3 2 emma 3 "Burger was disappointing.";
    Django.mkReview 4 2 van 4 "Food is good. Movie was OK." ].

Definition emma_on_movies : Django.Review :=
  Django.mkReview 3 2 emma 3 "Burger was disappointing.".
Definition van_on_movies : Django.Review :=
  Django.mkReview 4 2 van 4 "Food is good. Movie was OK.".

Definition objects : Django.ReviewManager := Django.table_objects rows.

(** Business 3 (SuperPlex) has no review; business 1 is asked for twice. *)
Definition business_keys : list Z := [1; 3; 1].

(** Review 9 does not exist; review 2 is asked for twice. *)
Definition review_keys : list Z := [2; 9; 2].

Definition node (element_id : string) (props : list (string * Neo4j.PyVal)) : Neo4j.Node :=
  Neo4j.mkNode element_id (list_to_map props).

Definition joes : Neo4j.Node :=
  node "4:b:0" [("externalID", Neo4j.VStr "joes"); ("name", Neo4j.VStr "Joe's");
                ("description", Neo4j.VStr "Eat at Joe's!")].
Definition super_plex : Neo4j.Node :=
  node "4:b:2" [("externalID", Neo4j.VStr "superplex"); ("name", Neo4j.VStr "SuperPlex");
                ("description", Neo4j.VStr "20 theaters for your pleasure!")].
Definition emma_node : Neo4j.Node :=
  node "4:u:0" [("externalID", Neo4j.VStr "3"); ("name", Neo4j.VStr "Emma Ly");
                ("email", Neo4j.VStr "")].
Definition van_node : Neo4j.Node :=
  node "4:u:1" [("externalID", Neo4j.VStr "2"); ("name", Neo4j.VStr "Van Ly");
                ("email", Neo4j.VStr "")].

Definition reviewed (element_id : string) (u b : Neo4j.Node) (rating : Z) (comment : string)
    : Neo4j.Relationship :=
  Neo4j.mkRelationship element_id
    (list_to_map [("rating", Neo4j.VInt rating); ("comment", Neo4j.VStr comment)])
    (Some u) (Some b).

Definition emma_on_joes : Neo4j.Relationship :=
  reviewed "5:r:0" emma_node joes 5 "I love their clam chowder!".
Definition van_on_joes : Neo4j.Relationship :=
  reviewed "5:r:1" van_node joes 4 "Food is good but too expensive.".

Definition settings : Neo4j.Settings :=
  Neo4j.mkSettings "bolt://localhost:7687" "neo4j" "password".

(** Other process-wide settings, and a service opened on another server. *)
Definition other_settings : Neo4j.Settings :=
  Neo4j.mkSettings "bolt://elsewhere:7687" "neo4j" "password".

Definition fake_service : Neo4j.Neo4jService :=
  (Neo4j.Neo4jService_init settings (Some "bolt://fake:7687") None None 1).1.

(** Toy servers: each REVIEWED edge lives on the server of one driver, and
    only the reviews-of-businesses query is answered. *)
Definition World : Type := list (Neo4j.Driver * Neo4j.Relationship).

Definition end_id (r : Neo4j.Relationship) : option Neo4j.PyVal :=
  n ← Neo4j.end_node r; Neo4j.Node_properties n !! "externalID".

Definition end_in (ids : list Neo4j.PyVal) (r : Neo4j.Relationship) : bool :=
  match end_id r with
  | Some v => bool_decide (v ∈ ids)
  | None => false
  end.

Definition row_of (r : Neo4j.Relationship) : Neo4j.Record_ :=
  Neo4j.mkRecord
    (list_to_map
       (omap (λ '(c, n), (λ n, (c, n)) <$> n)
             [("b", Neo4j.end_node r); ("u", Neo4j.start_node r)]))
    {[ "r" := r ]}.

Definition tx_run (d : Neo4j.Driver) (mode : Neo4j.AccessMode) (query : string)
    (params : option (list (string * Neo4j.Param))) (w : World)
    : list Neo4j.Record_ * World :=
  match mode, params with
  | Neo4j.READ, Some [(_, Neo4j.PList ids)] =>
      (row_of <$> filter (λ r, end_in ids r)
                    (snd <$> filter (λ e, e.1 = d) w), w)
  | _, _ => ([], w)
  end.

Definition edges : World :=
  [ (Neo4j.driver (Neo4j.NEO4JSERVICE settings), emma_on_joes);
    (Neo4j.driver (Neo4j.NEO4JSERVICE settings), van_on_joes) ].

Definition st0 : Neo4j.St := Neo4j.mkSt edges [].

Definition graph_keys : list Neo4j.PyVal :=
  [Neo4j.VStr "joes"; Neo4j.VStr "superplex"; Neo4j.VStr "joes"].

Definition joes_business : Neo4j.Business :=
  Neo4j.mkBusiness (Neo4j.VStr "joes") (Neo4j.VStr "Joe's") (Neo4j.VStr "Eat at Joe's!").

Definition emma_review : Neo4j.Review :=
  Neo4j.mkReview (Neo4j.VStr "5:r:0") (Neo4j.VInt 5)
    (Neo4j.VStr "I love their clam chowder!")
    (Neo4j.mkUser (Neo4j.VStr "3") (Neo4j.VStr "Emma Ly") (Neo4j.VStr ""))
    joes_business.

Definition van_review : Neo4j.Review :=
  Neo4j.mkReview (Neo4j.VStr "5:r:1") (Neo4j.VInt 4)
    (Neo4j.VStr "Food is good but too expensive.")
    (Neo4j.mkUser (Neo4j.VStr "2") (Neo4j.VStr "Van Ly") (Neo4j.VStr ""))
    joes_business.

(** What the DAO read returns on [st0], and the state it leaves. *)
Definition graph_reviews : list Neo4j.Review := [emma_review; van_review].

Definition st1 : Neo4j.St :=
  Eval vm_compute in
    (Neo4j.get_reviews_of_businesses tx_run
       (Neo4j.Neo4jDAO_init settings None) graph_keys st0).2.

(** A REVIEWED edge stored without properties, from a user node without
    properties to a business node that carries its id only. *)
Definition joes_id_only : Neo4j.Node :=
  node "4:b:0" [("externalID", Neo4j.VStr "joes")].
Definition nobody : Neo4j.Node := node "4:u:9" [].

Definition unrated : Neo4j.Relationship :=
  Neo4j.mkRelationship "5:r:9" ∅ (Some nobody) (Some joes_id_only).

Definition unrated_review : Neo4j.Review :=
  Neo4j.mkReview (Neo4j.VStr "5:r:9") Neo4j.VNone Neo4j.VNone
    (Neo4j.mkUser Neo4j.VNone Neo4j.VNone Neo4j.VNone)
    (Neo4j.mkBusiness (Neo4j.VStr "joes") Neo4j.VNone Neo4j.VNone).

(** The [NEO4JSERVICE] server holding that edge and [emma_on_joes]. *)
Definition sparse_st : Neo4j.St :=
  Neo4j.mkSt [ (Neo4j.driver (Neo4j.NEO4JSERVICE settings), unrated);
               (Neo4j.driver (Neo4j.NEO4JSERVICE settings), emma_on_joes) ] [].

(** The author loader of a request, if the middleware has installed it. *)
Definition author_loader (env : Graphene.Env)
    : option (SyncDataLoader.Loader Z Django.User) :=
  loaders ← Graphene.data_loaders (Graphene.context env);
  l ← loaders !! "review_author";
  match Graphene.loader_store env !! l with
  | Some (Graphene.ReviewAuthorLoader loader) => Some loader
  | _ => None
  end.

(** A fresh request resolving the authors of reviews 5, 9 and 5 again. *)
Definition review_with_id (id : Z) : Django.Review :=
  Django.mkReview id 1 emma 5 "".

Definition three_author_fields : Graphene.Env :=
  Graphene.run_middleware objects
    [ (Graphene.resolve_author, review_with_id 5, ());
      (Graphene.resolve_author, review_with_id 9, ());
      (Graphene.resolve_author, review_with_id 5, ()) ]
    (Graphene.mkEnv (Graphene.mkContext None) ∅).

(** A backend that returns two rows for review 7, written by different
    users. *)
Definition emma_row7 : Django.Review := Django.mkReview 7 1 emma 5 "first".
Definition van_row7 : Django.Review := Django.mkReview 7 1 van 1 "second".

Definition doubled_objects : Django.ReviewManager :=
  Django.mkReviewManager (λ _, []) (λ _, [emma_row7; van_row7]).

(** Two stores in which object 1 is the key list handed to a batch
    function and object 2 is an unrelated list. *)
Definition keys_ref : Obj.loc := 1%positive.

Definition heap : gmap Obj.loc (Obj.list_obj Z Django.Review Django.User) :=
  {[ 1%positive := Obj.Keys business_keys; 2%positive := Obj.Rows rows ]}.

Definition graph_heap
    : gmap Obj.loc (Obj.list_obj Neo4j.PyVal Neo4j.Review Neo4j.User) :=
  {[ 1%positive := Obj.Keys graph_keys; 2%positive := Obj.Rows graph_reviews ]}.

End Demo.

(** ** Identity of the result lists *)

Module ObjResult.
Import Obj.

Section result.
Context `{Countable K} {R U : Type}.
Abbreviation heap := (gmap loc (list_obj K R U)).

(** Two different positions of [items] hold the same list object exactly
    when they carry the same key and rows are filed under that key. *)
Definition slots_shared_iff (key : R → K) (rows : list R) (ks : list K)
    (items : list loc) : Prop :=
  length items = length ks ∧
  ∀ (i j : nat) ki kj, i ≠ j → ks !! i = Some ki → ks !! j = Some kj →
    (items !! i = items !! j ↔ ki = kj ∧ rows_for key rows ki ≠ []).

(** Going from [h] to [h'], every object of [h] is as it was, and the
    object [l] and the list objects it holds did not exist in [h]. *)
Definition result_is_new (h h' : heap) (l : loc) : Prop :=
  frame h h' ∧ h !! l = None ∧
  match h' !! l with
  | Some (Lists items) => Forall (λ item, h !! item = None) items
  | Some _ => True
  | None => False
  end.

End result.

End ObjResult.

(** ** What the DAO may raise *)

Module Neo4jErrors.
Import Neo4j.


(** The scalar parameters of a call, as a property map. *)
Definition properties_of (params : option (list (string * Param)))
    : gmap string PyVal :=
  list_to_map
    (omap (λ '(name, p), match p with
                         | PVal v => Some (name, v)
                         | PList _ => None
                         end)
          (default [] params)).



End Neo4jErrors.

(** ** A sample server for writes *)

Module DemoWrites.
Import Neo4j Neo4jErrors.

(** A server that answers every write with one record whose node columns
    [u], [b] and [c] are a node carrying the parameters of the write as its
    properties, and every read with no record. *)
Definition tx_run (d : Driver) (mode : AccessMode) (query : string)
    (params : option (list (string * Param))) (w : nat)
    : list Record_ * nat :=
  match mode with
  | WRITE =>
      let n := mkNode "4:n:0" (properties_of params) in
      ([mkRecord {[ "u" := n; "b" := n; "c" := n ]} ∅], S w)
  | READ => ([], w)
  end.


Definition st0 : St := mkSt 0%nat [].

Definition dao : Neo4jDAO := Neo4jDAO_init Demo.settings None.


End DemoWrites.

(** ** graphene/main/schema.py, the other resolvers *)

Module GrapheneFields.
Import Django Graphene.

(** [myapp.models.Business], the fields the resolvers read. *)
Record Business := mkBusiness {
  Business_id : Z;
  Business_name : string;
  Business_description : string
}.



End GrapheneFields.

(** ** graphdb/main/urls.py and the resolver of graphdb/main/schema.py *)

Module GraphdbUrls.
Import Neo4j.

Definition loc : Type := positive.

(** The loader objects of all requests, by identity. *)
Abbreviation store := (gmap loc (SyncDataLoader.Loader PyVal (list Review))).

(** [Context(StrawberryDjangoContext)] with its [dataloaders] dict. *)
Record Context (Request Response : Type) := mkContext {
  request : Request;
  response : Response;
  dataloaders : gmap string loc
}.
Arguments mkContext {Request Response}.
Arguments request {Request Response}.
Arguments response {Request Response}.
Arguments dataloaders {Request Response}.


(** The exceptions of the [Business.reviews] resolver. *)
Inductive resolver_exn :=
  | KeyError (key : string)
  | NotImplementedError.

(** [Business.reviews(self, root, info)] of graphdb/main/schema.py, with
    [info.context] the context [ctx].  A name bound to an identity that
    holds no loader, which [get_context] never produces, is reported like a
    missing name. *)
Definition reviews {Request Response : Type} (root : Business)
    (ctx : Context Request Response) (s : store)
    : (resolver_exn + SyncDataLoader.handle) * store :=
  if Graphdb.USE_DATALOADERS then
    match dataloaders ctx !! "business_reviews" with
    | None => (inl (KeyError "business_reviews"), s)
    | Some l =>
        match s !! l with
        | Some dataloader =>
            let '(h, dataloader) := SyncDataLoader.load (Business_id root) dataloader in
            (inr h, <[l := dataloader]> s)
        | None => (inl (KeyError "business_reviews"), s)
        end
    end
  else (inl NotImplementedError, s).

End GraphdbUrls.

(** ** ariadne/main/urls.py *)

Module AriadneUrls.
Import Django.

Definition loc : Type := positive.

(** A loader object of [get_context_value]: [SyncDataLoader] over one of
    the two ariadne batch functions. *)
Inductive LoaderObj :=
  | ReviewsForBusinesses (l : SyncDataLoader.Loader Z (list Review))
  | AuthorsForReviews (l : SyncDataLoader.Loader Z User).

(** The batch functions as a loader calls them: every slot of
    [get_reviews_for_businesses] is a value, a [None] slot of
    [get_authors_for_reviews] marks a missing key. *)
Definition reviews_batch (objects : ReviewManager) (keys : list Z)
    : SyncDataLoader.BatchOutcome (list Review) :=
  SyncDataLoader.Returned (Some <$> Ariadne.get_reviews_for_businesses objects keys).

Definition authors_batch (objects : ReviewManager) (keys : list Z)
    : SyncDataLoader.BatchOutcome User :=
  SyncDataLoader.Returned (Ariadne.get_authors_for_reviews objects keys).

(** The dict [get_context_value] returns: the request and the loaders. *)
Record ContextValue (Request : Type) := mkContextValue {
  request : Request;
  data_loaders : gmap string loc
}.
Arguments mkContextValue {Request}.
Arguments request {Request}.
Arguments data_loaders {Request}.

(** [GraphQLViewWithSyncDataloaders.get_context_value]: the dict literal
    builds the two loaders in source order. *)
Definition get_context_value {Request : Type} (objects : ReviewManager)
    (request : Request) (s : gmap loc LoaderObj)
    : ContextValue Request * gmap loc LoaderObj :=
  let l1 := fresh (dom s) in
  let s := <[l1 := ReviewsForBusinesses
                     (SyncDataLoader.SyncDataLoader (reviews_batch objects))]> s in
  let l2 := fresh (dom s) in
  let s := <[l2 := AuthorsForReviews
                     (SyncDataLoader.SyncDataLoader (authors_batch objects))]> s in
  (mkContextValue request
     {[ "reviews_for_businesses" := l1; "authors_for_reviews" := l2 ]}, s).

End AriadneUrls.

(** * Properties *)

(** ** Grouping lemmas shared by the batch functions *)

Section grouping.
Context `{Countable K} {R V : Type}.
Implicit Types (key : R → K) (rows : list R) (d : gmap K (list R)).

Lemma group_lookup key rows d k :
  default [] (foldl (λ d r, Py.defaultdict_append d (key r) r) d rows !! k)
  = default [] (d !! k) ++ rows_for key rows k.
Proof.
  revert d. induction rows as [|r rows IH]; intros d; simpl.
  - by rewrite app_nil_r.
  - rewrite IH. unfold Py.defaultdict_append, rows_for.
    rewrite filter_cons. destruct (decide (key r = k)) as [->|Hne].
    + rewrite lookup_insert_eq. simpl. by rewrite <- app_assoc.
    + by rewrite lookup_insert_ne.
Qed.

Lemma group_get key rows k :
  Py.get_default (foldl (λ d r, Py.defaultdict_append d (key r) r) ∅ rows) k []
  = rows_for key rows k.
Proof.
  unfold Py.get_default. rewrite group_lookup. by rewrite lookup_empty.
Qed.

Lemma index_lookup key (val : R → V) rows (m : gmap K V) k :
  foldl (λ m r, Py.setitem m (key r) (val r)) m rows !! k
  = match last_for key val rows k with
    | Some v => Some v
    | None => m !! k
    end.
Proof.
  revert m. induction rows as [|r rows IH]; intros m; simpl; [done|].
  rewrite IH. unfold last_for, rows_for, Py.setitem.
  rewrite filter_cons. destruct (decide (key r = k)) as [->|Hne].
  - rewrite lookup_insert_eq, last_cons.
    by destruct (last (filter _ rows)).
  - by rewrite lookup_insert_ne.
Qed.

Lemma index_get key (val : R → V) rows k :
  Py.get (foldl (λ m r, Py.setitem m (key r) (val r)) ∅ rows) k
  = last_for key val rows k.
Proof.
  unfold Py.get. rewrite index_lookup, lookup_empty.
  by destruct (last_for key val rows k).
Qed.

End grouping.

(** ** The batch functions in closed form *)

Section closed_forms.
Import Django.

Lemma answers_fmap `{EqDecision K} {V} (f : K → V) (keys : list K) :
  answers f keys (f <$> keys).
Proof.
  split; [apply length_fmap|]. intros i. apply list_lookup_fmap.
Qed.

Lemma group_fmap `{Countable K} {R} (key : R → K) (rows : list R) (keys : list K) :
  (λ pk, Py.get_default
           (foldl (λ d r, Py.defaultdict_append d (key r) r) ∅ rows) pk []) <$> keys
  = rows_for key rows <$> keys.
Proof. apply list_fmap_ext. intros _ k _. apply group_get. Qed.

Lemma index_fmap `{Countable K} {R V} (key : R → K) (val : R → V)
    (rows : list R) (keys : list K) :
  (λ pk, Py.get (foldl (λ m r, Py.setitem m (key r) (val r)) ∅ rows) pk) <$> keys
  = last_for key val rows <$> keys.
Proof. apply list_fmap_ext. intros _ k _. apply index_get. Qed.

Lemma get_reviews_for_businesses_eq objects keys :
  Ariadne.get_reviews_for_businesses objects keys
  = rows_for Review_business_id (filter_business_id__in objects keys) <$> keys.
Proof. apply group_fmap. Qed.

Lemma get_authors_for_reviews_eq objects keys :
  Ariadne.get_authors_for_reviews objects keys
  = last_for Review_id Review_user (filter_id__in objects keys) <$> keys.
Proof. apply index_fmap. Qed.

Lemma review_author_data_loader_eq objects keys :
  Graphene.review_author_data_loader objects keys
  = last_for Review_id Review_user (filter_id__in objects keys) <$> keys.
Proof. apply index_fmap. Qed.

Lemma business_review_data_loader_eq objects keys :
  Graphene.business_review_data_loader objects keys
  = rows_for Review_business_id (filter_business_id__in objects keys) <$> keys.
Proof. apply group_fmap. Qed.

Lemma dataloader_business_reviews_eq objects keys :
  Strawberry.dataloader_business_reviews objects keys
  = rows_for Review_business_id (filter_business_id__in objects keys) <$> keys.
Proof. apply group_fmap. Qed.

Lemma dataloader_review_author_eq objects keys :
  Strawberry.dataloader_review_author objects keys
  = last_for Review_id Review_user (filter_id__in objects keys) <$> keys.
Proof. apply index_fmap. Qed.

(** The graphdb batch function raises what the DAO read raises, and
    otherwise groups the reviews that read returned. *)
Lemma graphdb_dataloader_eq {World} tx_run settings (keys : list Neo4j.PyVal)
    (st : Neo4j.St (World := World)) :
  Graphdb.dataloader_business_reviews tx_run settings keys st
  = match Neo4j.get_reviews_of_businesses tx_run
            (Neo4j.Neo4jDAO_init settings None) keys st with
    | (inl e, st') => (inl e, st')
    | (inr reviews, st') =>
        (inr (rows_for (λ r, Neo4j.Business_id (Neo4j.Review_business r)) reviews
                <$> keys), st')
    end.
Proof.
  unfold Graphdb.dataloader_business_reviews, mbind, Neo4j.M_bind.
  destruct (Neo4j.get_reviews_of_businesses _ _ _ _) as [[e|reviews] st']; [done|].
  unfold mret, Neo4j.M_ret. by rewrite group_fmap.
Qed.

Lemma graphdb_dataloader_ok {World} tx_run settings (keys : list Neo4j.PyVal)
    (st st' : Neo4j.St (World := World)) reviews :
  Neo4j.get_reviews_of_businesses tx_run (Neo4j.Neo4jDAO_init settings None) keys st
    = (inr reviews, st') →
  Graphdb.dataloader_business_reviews tx_run settings keys st
  = (inr (rows_for (λ r, Neo4j.Business_id (Neo4j.Review_business r)) reviews
            <$> keys), st').
Proof. intros Hread. by rewrite graphdb_dataloader_eq, Hread. Qed.

Lemma rows_for_table (rows : list Review) (keys : list Z) k :
  k ∈ keys →
  rows_for Review_business_id (filter (λ r, Review_business_id r ∈ keys) rows) k
  = filter (λ r, Review_business_id r = k) rows.
Proof.
  intros Hk. unfold rows_for. induction rows as [|r rows IH]; [done|].
  rewrite !filter_cons.
  destruct (decide (Review_business_id r = k)) as [Heq|Hne].
  - rewrite decide_True by (by rewrite Heq).
    rewrite filter_cons, decide_True by done. by rewrite IH.
  - destruct (decide (Review_business_id r ∈ keys)); [|done].
    by rewrite filter_cons, decide_False.
Qed.

End closed_forms.

Lemma rows_for_none `{EqDecision K} {R} (key : R → K) (rows : list R) k :
  (∀ r, r ∈ rows → key r ≠ k) → rows_for key rows k = [].
Proof.
  intros Hnone. unfold rows_for. induction rows as [|r rows IH]; [done|].
  rewrite filter_cons_False by (apply Hnone; left).
  apply IH. intros r' Hr'. apply Hnone. by right.
Qed.

Lemma last_for_none `{EqDecision K} {R V} (key : R → K) (val : R → V) rows k :
  (∀ r, r ∈ rows → key r ≠ k) → last_for key val rows k = None.
Proof. intros Hnone. unfold last_for. by rewrite rows_for_none. Qed.

(** ** Claims about the batch functions *)

Section batch_claims.
Import Django.

(** C1.  For every list of keys, each batch function — reviews-by-business
    and author-by-review, in the ariadne, graphene, strawberry and graphdb
    variants — returns a list of exactly the length of the key list whose
    slot [i] holds the result for [keys[i]]: the backend rows of that
    business, or the author of that review.  The graphdb function does so
    whenever its DAO read returns. *)
Theorem batch_functions_answer_in_key_order
    (objects : ReviewManager) (keys : list Z) :
  let reviews_of := rows_for Review_business_id (filter_business_id__in objects keys) in
  let author_of := last_for Review_id Review_user (filter_id__in objects keys) in
  answers reviews_of keys (Ariadne.get_reviews_for_businesses objects keys) ∧
  answers author_of keys (Ariadne.get_authors_for_reviews objects keys) ∧
  answers author_of keys (Graphene.review_author_data_loader objects keys) ∧
  answers reviews_of keys (Graphene.business_review_data_loader objects keys) ∧
  answers reviews_of keys (Strawberry.dataloader_business_reviews objects keys) ∧
  answers author_of keys (Strawberry.dataloader_review_author objects keys) ∧
  ∀ (World : Type) tx_run (settings : Neo4j.Settings)
    (gkeys : list Neo4j.PyVal) (st st' : Neo4j.St (World := World))
    (reviews : list Neo4j.Review),
    Neo4j.get_reviews_of_businesses tx_run
      (Neo4j.Neo4jDAO_init settings None) gkeys st = (inr reviews, st') →
    ∃ res,
      Graphdb.dataloader_business_reviews tx_run settings gkeys st = (inr res, st') ∧
      answers (rows_for (λ r, Neo4j.Business_id (Neo4j.Review_business r)) reviews)
              gkeys res.
Proof.
  intros reviews_of author_of. subst reviews_of author_of.
  rewrite get_reviews_for_businesses_eq, get_authors_for_reviews_eq,
    review_author_data_loader_eq, business_review_data_loader_eq,
    dataloader_business_reviews_eq, dataloader_review_author_eq.
  repeat split; try apply list_lookup_fmap; try apply length_fmap.
  intros World tx_run settings gkeys st st' reviews Hread.
  eexists. split; [by apply graphdb_dataloader_ok|]. apply answers_fmap.
Qed.

(** C3.  For every key list and every list of reviews the backend query
    returns, the reviews-by-business batch function holds at position [i]
    exactly the returned reviews whose business id equals [keys[i]], in the
    order the backend returned them; over an in-memory table these are the
    table's reviews of that business. *)
Theorem reviews_by_business_exact
    (objects : ReviewManager) (keys : list Z) (i : nat) (k : Z)
    (Hi : keys !! i = Some k) :
  let returned := filter_business_id__in objects keys in
  Ariadne.get_reviews_for_businesses objects keys !! i
    = Some (filter (λ r, Review_business_id r = k) returned) ∧
  Graphene.business_review_data_loader objects keys !! i
    = Some (filter (λ r, Review_business_id r = k) returned) ∧
  Strawberry.dataloader_business_reviews objects keys !! i
    = Some (filter (λ r, Review_business_id r = k) returned) ∧
  (∀ rows,
     Ariadne.get_reviews_for_businesses (table_objects rows) keys !! i
       = Some (filter (λ r, Review_business_id r = k) rows) ∧
     Graphene.business_review_data_loader (table_objects rows) keys !! i
       = Some (filter (λ r, Review_business_id r = k) rows) ∧
     Strawberry.dataloader_business_reviews (table_objects rows) keys !! i
       = Some (filter (λ r, Review_business_id r = k) rows)) ∧
  ∀ (World : Type) tx_run (settings : Neo4j.Settings)
    (gkeys : list Neo4j.PyVal) (st st' : Neo4j.St (World := World))
    (reviews : list Neo4j.Review) (gi : nat) (gk : Neo4j.PyVal),
    Neo4j.get_reviews_of_businesses tx_run
      (Neo4j.Neo4jDAO_init settings None) gkeys st = (inr reviews, st') →
    gkeys !! gi = Some gk →
    ∃ res,
      Graphdb.dataloader_business_reviews tx_run settings gkeys st = (inr res, st') ∧
      res !! gi
        = Some (filter (λ r, Neo4j.Business_id (Neo4j.Review_business r) = gk) reviews).
Proof.
  intros returned. subst returned.
  rewrite get_reviews_for_businesses_eq, business_review_data_loader_eq,
    dataloader_business_reviews_eq.
  rewrite !list_lookup_fmap, Hi. simpl. repeat split; try done.
  - rewrite get_reviews_for_businesses_eq, list_lookup_fmap, Hi.
    simpl. f_equal. apply rows_for_table. by eapply list_elem_of_lookup_2.
  - rewrite business_review_data_loader_eq, list_lookup_fmap, Hi.
    simpl. f_equal. apply rows_for_table. by eapply list_elem_of_lookup_2.
  - rewrite dataloader_business_reviews_eq, list_lookup_fmap, Hi.
    simpl. f_equal. apply rows_for_table. by eapply list_elem_of_lookup_2.
  - intros World tx_run settings gkeys st st' reviews gi gk Hread Hgi.
    eexists. split; [by apply graphdb_dataloader_ok|].
    by rewrite list_lookup_fmap, Hgi.
Qed.

(** C4.  A key with no backend match is answered with a plain "no value",
    not an exception: the author-by-review functions return [None] at each
    position whose review id matches no returned review, and the
    reviews-by-business functions return the empty list at each position
    whose business has no returned review. *)
Theorem missing_key_is_no_value (objects : ReviewManager) :
  (∀ (review_ids : list Z) (i : nat) (rid : Z),
     review_ids !! i = Some rid →
     (∀ r, r ∈ filter_id__in objects review_ids → Review_id r ≠ rid) →
     Ariadne.get_authors_for_reviews objects review_ids !! i = Some None ∧
     Graphene.review_author_data_loader objects review_ids !! i = Some None ∧
     Strawberry.dataloader_review_author objects review_ids !! i = Some None) ∧
  (∀ (business_ids : list Z) (j : nat) (bid : Z),
     business_ids !! j = Some bid →
     (∀ r, r ∈ filter_business_id__in objects business_ids →
           Review_business_id r ≠ bid) →
     Ariadne.get_reviews_for_businesses objects business_ids !! j = Some [] ∧
     Graphene.business_review_data_loader objects business_ids !! j = Some [] ∧
     Strawberry.dataloader_business_reviews objects business_ids !! j = Some []) ∧
  ∀ (World : Type) tx_run (settings : Neo4j.Settings)
    (gkeys : list Neo4j.PyVal) (st st' : Neo4j.St (World := World))
    (reviews : list Neo4j.Review) (gi : nat) (gk : Neo4j.PyVal),
    Neo4j.get_reviews_of_businesses tx_run
      (Neo4j.Neo4jDAO_init settings None) gkeys st = (inr reviews, st') →
    gkeys !! gi = Some gk →
    (∀ r, r ∈ reviews → Neo4j.Business_id (Neo4j.Review_business r) ≠ gk) →
    ∃ res,
      Graphdb.dataloader_business_reviews tx_run settings gkeys st = (inr res, st') ∧
      res !! gi = Some [].
Proof.
  split; [|split].
  - intros review_ids i rid Hi Hrid.
    rewrite get_authors_for_reviews_eq, review_author_data_loader_eq,
      dataloader_review_author_eq.
    rewrite !list_lookup_fmap, Hi. simpl.
    by rewrite (last_for_none _ _ _ _ Hrid).
  - intros business_ids j bid Hj Hbid.
    rewrite get_reviews_for_businesses_eq, business_review_data_loader_eq,
      dataloader_business_reviews_eq.
    rewrite !list_lookup_fmap, Hj. simpl.
    by rewrite (rows_for_none _ _ _ Hbid).
  - intros World tx_run settings gkeys st st' reviews gi gk Hread Hgi Hgk.
    eexists. split; [by apply graphdb_dataloader_ok|].
    by rewrite list_lookup_fmap, Hgi, <- (rows_for_none _ _ _ Hgk).
Qed.

(** C9.  Every batch function tolerates duplicate keys: when the same key
    stands at positions [i] and [j] of the key list, the returned list
    holds a value at [i] and a value at [j], and the two are equal. *)
Theorem duplicate_keys_share_value
    (objects : ReviewManager) (keys : list Z) (i j : nat) (k : Z)
    (Hi : keys !! i = Some k) (Hj : keys !! j = Some k) :
  (∃ v, Graphene.review_author_data_loader objects keys !! i = Some v ∧
        Graphene.review_author_data_loader objects keys !! j = Some v) ∧
  (∃ v, Ariadne.get_authors_for_reviews objects keys !! i = Some v ∧
        Ariadne.get_authors_for_reviews objects keys !! j = Some v) ∧
  (∃ v, Strawberry.dataloader_review_author objects keys !! i = Some v ∧
        Strawberry.dataloader_review_author objects keys !! j = Some v) ∧
  (∃ v, Graphene.business_review_data_loader objects keys !! i = Some v ∧
        Graphene.business_review_data_loader objects keys !! j = Some v) ∧
  (∃ v, Ariadne.get_reviews_for_businesses objects keys !! i = Some v ∧
        Ariadne.get_reviews_for_businesses objects keys !! j = Some v) ∧
  (∃ v, Strawberry.dataloader_business_reviews objects keys !! i = Some v ∧
        Strawberry.dataloader_business_reviews objects keys !! j = Some v) ∧
  ∀ (World : Type) tx_run (settings : Neo4j.Settings)
    (gkeys : list Neo4j.PyVal) (st st' : Neo4j.St (World := World))
    (reviews : list Neo4j.Review) (gi gj : nat) (gk : Neo4j.PyVal),
    Neo4j.get_reviews_of_businesses tx_run
      (Neo4j.Neo4jDAO_init settings None) gkeys st = (inr reviews, st') →
    gkeys !! gi = Some gk → gkeys !! gj = Some gk →
    ∃ res v,
      Graphdb.dataloader_business_reviews tx_run settings gkeys st = (inr res, st') ∧
      res !! gi = Some v ∧ res !! gj = Some v.
Proof.
  rewrite get_reviews_for_businesses_eq, get_authors_for_reviews_eq,
    review_author_data_loader_eq, business_review_data_loader_eq,
    dataloader_business_reviews_eq, dataloader_review_author_eq.
  rewrite !list_lookup_fmap, Hi, Hj. simpl.
  repeat (split; [eexists; split; reflexivity|]).
  intros World tx_run settings gkeys st st' reviews gi gj gk Hread Hgi Hgj.
  eexists _, _. split; [by apply graphdb_dataloader_ok|].
  by rewrite !list_lookup_fmap, Hgi, Hgj.
Qed.

(** C10.  The ariadne email resolver never yields null for the
    non-nullable email field: it returns the user's email when that is a
    non-empty string, and the empty string when the stored email is [None]
    or empty. *)
Theorem resolve_user_email_never_null (user : User) :
  Ariadne.resolve_user_email user
  = Some (match User_email user with
          | Some e => if decide (e = "") then "" else e
          | None => ""
          end)
  ∧ Ariadne.resolve_user_email user ≠ None.
Proof.
  unfold Ariadne.resolve_user_email, Py.or_str, Py.truthy_str.
  destruct (User_email user) as [e|]; [|done].
  destruct (String.eqb_spec e "") as [->|Hne]; simpl.
  - done.
  - by rewrite decide_False.
Qed.

Lemma demo_read :
  Neo4j.get_reviews_of_businesses Demo.tx_run
    (Neo4j.Neo4jDAO_init Demo.settings None) Demo.graph_keys Demo.st0
  = (inr Demo.graph_reviews, Demo.st1).
Proof. vm_compute. reflexivity. Defined.

Lemma batch_functions_answer_in_key_order_witness :
  answers (rows_for Review_business_id
             (filter_business_id__in Demo.objects Demo.business_keys))
          Demo.business_keys
          (Ariadne.get_reviews_for_businesses Demo.objects Demo.business_keys) ∧
  answers (last_for Review_id Review_user
             (filter_id__in Demo.objects Demo.business_keys))
          Demo.business_keys
          (Strawberry.dataloader_review_author Demo.objects Demo.business_keys) ∧
  ∃ res,
    Graphdb.dataloader_business_reviews Demo.tx_run Demo.settings
      Demo.graph_keys Demo.st0 = (inr res, Demo.st1) ∧
    length res = length Demo.graph_keys.
Proof.
  destruct (batch_functions_answer_in_key_order Demo.objects Demo.business_keys)
    as (H1 & _ & _ & _ & _ & H6 & Hgraph).
  destruct (Hgraph _ Demo.tx_run Demo.settings Demo.graph_keys Demo.st0 Demo.st1
              Demo.graph_reviews demo_read) as (res & Hres & Hlen & _).
  split; [exact H1|]. split; [exact H6|]. exists res. split; [exact Hres|exact Hlen].
Defined.

Lemma reviews_by_business_exact_witness :
  Graphene.business_review_data_loader Demo.objects Demo.business_keys !! 2%nat
    = Some (filter (λ r, Review_business_id r = 1) Demo.rows) ∧
  ∃ res,
    Graphdb.dataloader_business_reviews Demo.tx_run Demo.settings
      Demo.graph_keys Demo.st0 = (inr res, Demo.st1) ∧
    res !! 0%nat = Some [Demo.emma_review; Demo.van_review].
Proof.
  destruct (reviews_by_business_exact Demo.objects Demo.business_keys 2 1 eq_refl)
    as (_ & _ & _ & Htable & Hgraph).
  destruct (Hgraph _ Demo.tx_run Demo.settings Demo.graph_keys Demo.st0 Demo.st1
              Demo.graph_reviews 0%nat (Neo4j.VStr "joes") demo_read eq_refl)
    as (res & Hres & Hpos).
  split; [exact (proj1 (proj2 (Htable Demo.rows)))|].
  exists res. split; [exact Hres|exact Hpos].
Defined.

Lemma missing_key_is_no_value_witness :
  Graphene.review_author_data_loader Demo.objects Demo.review_keys !! 1%nat
    = Some None ∧
  Ariadne.get_reviews_for_businesses Demo.objects Demo.business_keys !! 1%nat
    = Some [] ∧
  ∃ res,
    Graphdb.dataloader_business_reviews Demo.tx_run Demo.settings
      Demo.graph_keys Demo.st0 = (inr res, Demo.st1) ∧
    res !! 1%nat = Some [].
Proof.
  assert (Hrid : ∀ r, r ∈ filter_id__in Demo.objects Demo.review_keys →
                      Review_id r ≠ 9).
  { intros r Hr. vm_compute in Hr. apply list_elem_of_In in Hr. simpl in Hr.
    destruct Hr as [<-|[]]. discriminate. }
  assert (Hbid : ∀ r, r ∈ filter_business_id__in Demo.objects Demo.business_keys →
                      Review_business_id r ≠ 3).
  { intros r Hr. vm_compute in Hr. apply list_elem_of_In in Hr. simpl in Hr.
    destruct Hr as [<-|[<-|[]]]; discriminate. }
  assert (Hgk : ∀ r, r ∈ Demo.graph_reviews →
                     Neo4j.Business_id (Neo4j.Review_business r)
                     ≠ Neo4j.VStr "superplex").
  { intros r Hr. apply list_elem_of_In in Hr. simpl in Hr.
    destruct Hr as [<-|[<-|[]]]; discriminate. }
  destruct (missing_key_is_no_value Demo.objects) as (Hauthors & Hreviews & Hgraph).
  destruct (Hauthors Demo.review_keys 1%nat 9 eq_refl Hrid) as (_ & H2 & _).
  destruct (Hreviews Demo.business_keys 1%nat 3 eq_refl Hbid) as (H4 & _ & _).
  destruct (Hgraph _ Demo.tx_run Demo.settings Demo.graph_keys Demo.st0 Demo.st1
              Demo.graph_reviews 1%nat (Neo4j.VStr "superplex")
              demo_read eq_refl Hgk) as (res & Hres & Hpos).
  split; [exact H2|]. split; [exact H4|]. exists res. split; [exact Hres|exact Hpos].
Defined.

Lemma duplicate_keys_share_value_witness :
  (∃ v, Graphene.review_author_data_loader Demo.objects Demo.review_keys !! 0%nat
          = Some v ∧
        Graphene.review_author_data_loader Demo.objects Demo.review_keys !! 2%nat
          = Some v) ∧
  (∃ v, Strawberry.dataloader_business_reviews Demo.objects Demo.review_keys !! 0%nat
          = Some v ∧
        Strawberry.dataloader_business_reviews Demo.objects Demo.review_keys !! 2%nat
          = Some v) ∧
  ∃ res v,
    Graphdb.dataloader_business_reviews Demo.tx_run Demo.settings
      Demo.graph_keys Demo.st0 = (inr res, Demo.st1) ∧
    res !! 0%nat = Some v ∧ res !! 2%nat = Some v.
Proof.
  destruct (duplicate_keys_share_value Demo.objects Demo.review_keys 0 2 2
              eq_refl eq_refl)
    as (H1 & _ & _ & _ & _ & H6 & Hgraph).
  destruct (Hgraph _ Demo.tx_run Demo.settings Demo.graph_keys Demo.st0 Demo.st1
              Demo.graph_reviews 0%nat 2%nat (Neo4j.VStr "joes")
              demo_read eq_refl eq_refl) as (res & v & Hres & Hi & Hj).
  split; [exact H1|]. split; [exact H6|]. exists res, v.
  split; [exact Hres|]. split; [exact Hi|exact Hj].
Defined.

(** C7.  Every Review that [Review.from_relationship] builds takes all its
    fields from the one fetched edge: the author is [User.from_node] of the
    relationship's start node, the business is [Business.from_node] of its
    end node, and id, rating and comment are the relationship's own element
    id and what subscripting the relationship reads under [rating] and
    [comment] ([None] for a property the edge does not carry).  The edge has
    both its end points, and every edge that has them is built.  No further
    lookup is issued: the DAO read that builds reviews makes exactly one
    call on its service. *)
Theorem Review_from_relationship_single_edge
    (relationship : Neo4j.Relationship) (review : Neo4j.Review)
    (Hbuilt : Neo4j.Review_from_relationship relationship = inr review) :
  Neo4j.User_from_node (Neo4j.start_node relationship)
    = inr (Neo4j.Review_author review) ∧
  Neo4j.Business_from_node (Neo4j.end_node relationship)
    = inr (Neo4j.Review_business review) ∧
  Neo4j.Review_id review = Neo4j.VStr (Neo4j.element_id relationship) ∧
  Neo4j.Review_rating review
    = default Neo4j.VNone (Neo4j.Relationship_properties relationship !! "rating") ∧
  Neo4j.Review_comment review
    = default Neo4j.VNone (Neo4j.Relationship_properties relationship !! "comment") ∧
  (∃ u b,
     Neo4j.start_node relationship = Some u ∧
     Neo4j.end_node relationship = Some b ∧
     Neo4j.Review_author review
       = Neo4j.mkUser (default Neo4j.VNone (Neo4j.Node_properties u !! "externalID"))
                      (default Neo4j.VNone (Neo4j.Node_properties u !! "name"))
                      (default Neo4j.VNone (Neo4j.Node_properties u !! "email")) ∧
     Neo4j.Review_business review
       = Neo4j.mkBusiness
           (default Neo4j.VNone (Neo4j.Node_properties b !! "externalID"))
           (default Neo4j.VNone (Neo4j.Node_properties b !! "name"))
           (default Neo4j.VNone (Neo4j.Node_properties b !! "description"))) ∧
  (∀ edge u b,
     Neo4j.start_node edge = Some u → Neo4j.end_node edge = Some b →
     ∃ built, Neo4j.Review_from_relationship edge = inr built) ∧
  ∀ (World : Type) tx_run (self : Neo4j.Neo4jDAO) ids (st : Neo4j.St (World := World)),
    Neo4j.calls (Neo4j.get_reviews_of_businesses tx_run self ids st).2
    = Neo4j.calls st ++
      [Neo4j.mkCall (Neo4j.service self) Neo4j.READ
         "MATCH (b:Business)<-[r:REVIEWED]-(u:User) WHERE b.externalID in $ids RETURN b, r, u"
         (Some [("ids", Neo4j.PList ids)])].
Proof.
  unfold Neo4j.Review_from_relationship, Neo4j.User_from_node,
    Neo4j.Business_from_node, Neo4j.subscript, Neo4j.getitem in Hbuilt.
  destruct relationship as [eid props [u|] [b|]]; simpl in Hbuilt; try done.
  injection Hbuilt as <-. simpl.
  split; [done|]. split; [done|]. split; [done|]. split; [done|]. split; [done|].
  split; [by exists u, b|]. split.
  - intros [eid' props' ??] u' b'. simpl. intros -> ->. by eexists.
  - intros World tx_run self ids st.
    unfold Neo4j.get_reviews_of_businesses, Neo4j.session_read.
    unfold mbind, Neo4j.M_bind.
    destruct (tx_run _ _ _ _ _) as [records w].
    by destruct (mapM _ records).
Qed.

Lemma Review_from_relationship_single_edge_witness :
  (Neo4j.Review_from_relationship Demo.emma_on_joes = inr Demo.emma_review ∧
   Neo4j.User_from_node (Some Demo.emma_node)
     = inr (Neo4j.Review_author Demo.emma_review) ∧
   Neo4j.Business_from_node (Some Demo.joes) = inr Demo.joes_business) ∧
  (Neo4j.Review_from_relationship Demo.unrated = inr Demo.unrated_review ∧
   Neo4j.User_from_node (Some Demo.nobody)
     = inr (Neo4j.Review_author Demo.unrated_review) ∧
   Neo4j.Review_rating Demo.unrated_review = Neo4j.VNone).
Proof.
  assert (Hbuilt : Neo4j.Review_from_relationship Demo.emma_on_joes
                   = inr Demo.emma_review) by (vm_compute; reflexivity).
  assert (Hunrated : Neo4j.Review_from_relationship Demo.unrated
                     = inr Demo.unrated_review) by (vm_compute; reflexivity).
  destruct (Review_from_relationship_single_edge Demo.emma_on_joes
              Demo.emma_review Hbuilt) as (Hauthor & Hbusiness & _).
  destruct (Review_from_relationship_single_edge Demo.unrated
              Demo.unrated_review Hunrated) as (Hnobody & _ & _ & Hrating & _).
  split.
  - split; [exact Hbuilt|]. split; [exact Hauthor|exact Hbusiness].
  - split; [exact Hunrated|]. split; [exact Hnobody|exact Hrating].
Defined.

End batch_claims.

(** ** The loader's window *)

Section window.
Import SyncDataLoader.
Context `{Countable K} {V : Type}.
Implicit Types (keys : list K) (self : Loader K V) (events : list (event K)).

Lemma first_occurrences_elem_of keys k :
  k ∈ first_occurrences keys ↔ k ∈ keys.
Proof.
  induction keys as [|key keys IH]; simpl; [done|].
  rewrite !elem_of_cons, list_elem_of_filter, IH.
  destruct (decide (k = key)); tauto.
Qed.

Lemma first_occurrences_NoDup keys : NoDup (first_occurrences keys).
Proof.
  induction keys as [|key keys IH]; simpl; [constructor|].
  constructor; [|by apply NoDup_filter].
  rewrite list_elem_of_filter. intros [Hne _]. by apply Hne.
Qed.

Lemma first_occurrences_snoc keys k :
  first_occurrences (keys ++ [k])
  = if decide (k ∈ keys) then first_occurrences keys
    else first_occurrences keys ++ [k].
Proof.
  induction keys as [|key keys IH]; simpl; [done|].
  rewrite IH. destruct (decide (k ∈ keys)) as [Hin|Hnin].
  - rewrite decide_True; [done|by right].
  - rewrite filter_app, filter_cons, filter_nil.
    destruct (decide (k = key)) as [->|Hne].
    + rewrite decide_False by (intros Hn; by apply Hn).
      rewrite decide_True by left. by rewrite app_nil_r.
    + rewrite decide_True by done.
      rewrite decide_False; [done|]. rewrite elem_of_cons. tauto.
Qed.

Lemma requested_snoc events e :
  requested (events ++ [e])
  = requested events ++ match e with Load key => [key] | Flush => [] end.
Proof.
  unfold requested. rewrite omap_app. by destruct e.
Qed.

Lemma requested_loads keys : requested (Load <$> keys) = keys.
Proof.
  unfold requested. induction keys as [|key keys IH]; [done|].
  rewrite fmap_cons. simpl. f_equal. exact IH.
Qed.

Lemma run_loads_sent keys (w : Loader K V * list (list K)) :
  (foldl step w (Load <$> keys)).2 = w.2.
Proof.
  revert w. induction keys as [|key keys IH]; intros w; [done|].
  rewrite fmap_cons. simpl. by rewrite IH.
Qed.

Lemma flush_cache self : cache (flush self).1 = cache self.
Proof. unfold flush. by destruct (queue self). Qed.

Lemma window_inv_run (fn : list K → BatchOutcome V) events :
  window_inv events (run_window events (SyncDataLoader fn)).
Proof.
  unfold run_window.
  induction events as [|e events IH] using rev_ind.
  - split; [done|]. intros k. simpl. rewrite lookup_empty, elem_of_nil.
    split; [by intros [? ?]|done].
  - rewrite foldl_app. simpl.
    destruct (foldl step (SyncDataLoader fn, []) events) as [self sent].
    destruct IH as [Hsent Hcache]. simpl in Hsent, Hcache.
    unfold window_inv. rewrite requested_snoc. destruct e as [key|]; simpl.
    + rewrite first_occurrences_snoc. unfold load.
      destruct (cache self !! key) as [h|] eqn:Hkey; simpl.
      * rewrite decide_True by (apply Hcache; by rewrite Hkey).
        split; [done|]. intros k. rewrite elem_of_app, list_elem_of_singleton.
        rewrite Hcache. split; [by left|]. intros [?| ->]; [done|].
        apply Hcache. by rewrite Hkey.
      * rewrite decide_False
          by (intros Hin; apply Hcache in Hin; rewrite Hkey in Hin; by destruct Hin).
        split; [by rewrite app_assoc, Hsent|].
        intros k. rewrite elem_of_app, list_elem_of_singleton.
        destruct (decide (key = k)) as [->|Hne].
        -- rewrite lookup_insert_eq. split; [by right|by eexists].
        -- rewrite lookup_insert_ne by done. rewrite Hcache.
           split; [by left|]. intros [?|?]; [done|congruence].
    + rewrite app_nil_r. pose proof (flush_cache self) as Hfc.
      unfold flush in *. destruct (queue self) as [|k0 pending] eqn:Hq; simpl in *.
      * rewrite Hq. by split.
      * rewrite concat_app. simpl. rewrite !app_nil_r. by split.
Qed.

End window.

Section window_claim.
Import SyncDataLoader.

(** C2.  For every sequence of [load] calls and flushes of one window, the
    key lists handed to the batch function, followed by the keys still
    pending, are the distinct requested keys in first-occurrence order, so
    the batch function sees each distinct key at most once; and a [load] of
    a key requested before adds no slot to the outgoing batch.  In
    particular [load] calls flushed once reach the batch function as one
    call with the first occurrences of their keys. *)
Theorem window_sends_each_key_once `{Countable K} {V : Type}
    (fn : list K → BatchOutcome V) (events : list (event K)) :
  let w := run_window events (SyncDataLoader fn) in
  concat w.2 ++ queue w.1 = first_occurrences (requested events) ∧
  NoDup (concat w.2 ++ queue w.1) ∧
  (∀ k, k ∈ requested events → queue (load k w.1).2 = queue w.1) ∧
  ∀ key keys,
    (run_window ((Load <$> key :: keys) ++ [Flush]) (SyncDataLoader fn)).2
    = [first_occurrences (key :: keys)].
Proof.
  intros w. subst w.
  destruct (window_inv_run fn events) as [Hsent Hcache].
  split; [done|]. split; [rewrite Hsent; apply first_occurrences_NoDup|].
  split.
  - intros k Hk. apply Hcache in Hk as [h Hh]. unfold load. by rewrite Hh.
  - intros key keys.
    pose proof (window_inv_run fn (Load <$> key :: keys)) as [Hs _].
    rewrite requested_loads in Hs.
    pose proof (run_loads_sent (key :: keys) (SyncDataLoader fn, [])) as Hnone.
    unfold run_window in *. rewrite foldl_app.
    destruct (foldl step (SyncDataLoader fn, []) (Load <$> key :: keys))
      as [self sent].
    simpl in Hs, Hnone. subst sent. simpl in Hs.
    simpl. unfold flush. by rewrite Hs.
Qed.

(** The window of the spec's scenario: [load(1)], [load(2)], [load(1)],
    then one flush. *)
Lemma window_sends_each_key_once_witness :
  (run_window [Load 1; Load 2; Load 1; Flush]
     (SyncDataLoader (λ keys : list Z, Returned (Some <$> keys)))).2 = [[1; 2]].
Proof.
  exact (proj2 (proj2 (proj2
    (window_sends_each_key_once (λ keys : list Z, Returned (Some <$> keys)) [])))
    1 [2; 1]).
Defined.

End window_claim.

(** ** The graphene middleware *)

Section middleware.
Import Django Graphene.
Context {Root Args R : Type}.
Implicit Types (next : Root → Args → Env → R * Env) (env : Env).

Lemma middleware_installed objects next root args env :
  hasattr_data_loaders (context env) = true →
  data_loader_middleware objects next root args env = next root args env.
Proof. unfold data_loader_middleware. simpl. by intros ->. Qed.

Lemma middleware_fresh objects next root args env :
  data_loaders (context env) = None →
  data_loader_middleware objects next root args env
  = next root args (install objects env).
Proof.
  intros Hnone. unfold data_loader_middleware, hasattr_data_loaders.
  simpl. by rewrite Hnone.
Qed.

Lemma run_middleware_context objects
    (invocations : list ((Root → Args → Env → R * Env) * Root * Args)) env :
  hasattr_data_loaders (context env) = true →
  Forall (λ inv, keeps_context inv.1.1) invocations →
  context (run_middleware objects invocations env) = context env.
Proof.
  intros Hhas Hkeep. revert env Hhas.
  induction Hkeep as [|[[next root] args] invocations Hnext _ IH]; intros env Hhas;
    [done|].
  unfold run_middleware in *. simpl.
  rewrite middleware_installed by done.
  rewrite IH; [apply Hnext|]. simpl in Hnext. by rewrite Hnext.
Qed.

End middleware.

Section middleware_claim.
Import Django Graphene.

Lemma resolve_author_keeps_context : keeps_context resolve_author.
Proof.
  intros root args env. unfold resolve_author. simpl.
  destruct (data_loaders (context env)) as [loaders|]; [|done].
  destruct (loaders !! "review_author") as [l|]; [|done].
  destruct (loader_store env !! l) as [[loader|loader]|]; try done.
  by destruct (SyncDataLoader.load _ loader).
Qed.

(** C5.  For every sequence of invocations of the graphene middleware on a
    fresh request context, whose resolvers leave the context's attributes
    alone: the first invocation runs its resolver with a [data_loaders]
    mapping installed that binds "business_review" and "review_author" to two
    distinct new loaders over the two batch functions, and every later
    invocation installs nothing — it is its resolver alone, and the mapping
    is still the one installed first. *)
Theorem middleware_installs_loaders_once {Root Args R : Type}
    (objects : ReviewManager)
    (next : Root → Args → Env → R * Env) (root : Root) (args : Args)
    (later : list ((Root → Args → Env → R * Env) * Root * Args))
    (env : Env)
    (Hfresh : data_loaders (context env) = None)
    (Hnext : keeps_context next)
    (Hlater : Forall (λ inv, keeps_context inv.1.1) later) :
  ∃ l1 l2 : loc,
    l1 ≠ l2 ∧
    loader_store env !! l1 = None ∧ loader_store env !! l2 = None ∧
    data_loaders (context (install objects env))
      = Some {[ "business_review" := l1; "review_author" := l2 ]} ∧
    loader_store (install objects env) !! l1
      = Some (BusinessReviewLoader
                (SyncDataLoader.SyncDataLoader (business_review_batch objects))) ∧
    loader_store (install objects env) !! l2
      = Some (ReviewAuthorLoader
                (SyncDataLoader.SyncDataLoader (review_author_batch objects))) ∧
    data_loader_middleware objects next root args env
      = next root args (install objects env) ∧
    ∀ n : nat,
      let env_n :=
        run_middleware objects ((next, root, args) :: take n later) env in
      data_loaders (context env_n)
        = Some {[ "business_review" := l1; "review_author" := l2 ]} ∧
      ∀ (next' : Root → Args → Env → R * Env) root' args',
        data_loader_middleware objects next' root' args' env_n
        = next' root' args' env_n.
Proof.
  set (l1 := fresh (dom (loader_store env))).
  set (store1 :=
    <[l1 := BusinessReviewLoader
              (SyncDataLoader.SyncDataLoader (business_review_batch objects))]>
      (loader_store env)).
  set (l2 := fresh (dom store1)).
  assert (Hl1 : loader_store env !! l1 = None).
  { apply not_elem_of_dom. apply is_fresh. }
  assert (Hl2 : store1 !! l2 = None).
  { apply not_elem_of_dom. apply is_fresh. }
  assert (Hne : l1 ≠ l2).
  { intros Heq. rewrite <- Heq in Hl2. unfold store1 in Hl2.
    by rewrite lookup_insert_eq in Hl2. }
  exists l1, l2. split; [done|]. split; [done|].
  split; [by unfold store1 in Hl2; rewrite lookup_insert_ne in Hl2|].
  split; [done|].
  assert (Hstore : loader_store (install objects env)
            = <[l2 := ReviewAuthorLoader
                        (SyncDataLoader.SyncDataLoader (review_author_batch objects))]>
                store1) by reflexivity.
  rewrite Hstore.
  split; [by unfold store1; rewrite lookup_insert_ne, lookup_insert_eq|].
  split; [by rewrite lookup_insert_eq|].
  split; [by apply middleware_fresh|].
  intros n env_n.
  assert (Hctx : context env_n = context (install objects env)).
  { subst env_n. unfold run_middleware. simpl. rewrite middleware_fresh by done.
    fold (run_middleware objects (take n later)
            (next root args (install objects env)).2).
    rewrite run_middleware_context.
    - apply Hnext.
    - by rewrite Hnext.
    - by apply Forall_take. }
  split; [by rewrite Hctx|].
  intros next' root' args'. apply middleware_installed.
  unfold hasattr_data_loaders. by rewrite Hctx.
Qed.

Lemma middleware_installs_loaders_once_witness :
  ∃ l1 l2 : loc,
    l1 ≠ l2 ∧
    ∀ n : nat,
      data_loaders
        (context
           (run_middleware Demo.objects
              ((resolve_author, Demo.emma_on_movies, ())
               :: take n [(resolve_author, Demo.van_on_movies, ());
                          (resolve_author, Demo.emma_on_movies, ())])
              (mkEnv (mkContext None) ∅)))
      = Some {[ "business_review" := l1; "review_author" := l2 ]}.
Proof.
  assert (Hlater0 :
    Forall (λ inv : (Review → () → Env → option (SyncDataLoader.handle + User) * Env)
                    * Review * (), keeps_context inv.1.1)
           [(resolve_author, Demo.van_on_movies, ());
            (resolve_author, Demo.emma_on_movies, ())])
    by (repeat constructor; apply resolve_author_keeps_context).
  destruct (middleware_installs_loaders_once Demo.objects
              resolve_author Demo.emma_on_movies ()
              [(resolve_author, Demo.van_on_movies, ());
               (resolve_author, Demo.emma_on_movies, ())]
              (mkEnv (mkContext None) ∅) eq_refl
              resolve_author_keeps_context Hlater0)
    as (l1 & l2 & Hne & _ & _ & _ & _ & _ & _ & Hlater).
  exists l1, l2. split; [exact Hne|]. intros n. exact (proj1 (Hlater n)).
Defined.

(** The middleware and the loader together: three author fields resolved
    on a fresh request, two of them for the same review, leave the author
    loader with the batch [[5; 9]], which one flush hands to the batch
    function. *)
Example author_loads_share_one_batch :
  SyncDataLoader.queue <$> Demo.author_loader Demo.three_author_fields
    = Some [5; 9] ∧
  (λ loader, (SyncDataLoader.flush loader).2)
    <$> Demo.author_loader Demo.three_author_fields
    = Some (Some [5; 9]).
Proof. split; vm_compute; reflexivity. Qed.

End middleware_claim.

(** ** Which service the DAO talks to *)

Section dao.
Import Neo4j.
Context {World : Type}.
Variable tx_run :
  Driver → AccessMode → string → option (list (string * Param)) →
  World → list Record_ * World.

Lemma session_read_calls {A} self query consumer params st :
  calls (session_read (A := A) tx_run self query consumer params st).2
  = calls st ++ [mkCall self READ query params].
Proof.
  unfold session_read. destruct (tx_run _ _ _ _ _) as [records w].
  destruct consumer as [consume|]; [|done]. by destruct (consume records).
Qed.

Lemma session_write_calls {A} self query consumer params st :
  calls (session_write (A := A) tx_run self query consumer params st).2
  = calls st ++ [mkCall self WRITE query params].
Proof.
  unfold session_write. destruct (tx_run _ _ _ _ _) as [records w].
  destruct consumer as [consume|]; [|done]. by destruct (consume records).
Qed.

Lemma bind_calls {A B} (m : M A) (f : A → M (World := World) B) st :
  (∀ a st', calls (f a st').2 = calls st') →
  calls ((m ≫= f) st).2 = calls (m st).2.
Proof.
  intros Hf. unfold mbind, M_bind. destruct (m st) as [[e|a] st']; [done|].
  apply Hf.
Qed.

Lemma assert_set_calls {A} (x : option A) (st : St (World := World)) :
  calls (assert_set x st).2 = calls st.
Proof. by destruct x. Qed.

End dao.

Ltac one_call :=
  intros st; eexists; split;
  [ rewrite bind_calls;
    [ first [ apply session_write_calls | apply session_read_calls ]
    | intros; first [ apply assert_set_calls | reflexivity ] ]
  | reflexivity ].

Section dao_claim.
Import Neo4j.

(** C6, as the code has it.  A [Neo4jDAO] built with a service argument
    keeps exactly that service and makes every one of its operations' calls
    — one per operation — on it; built without one it keeps the
    process-wide [NEO4JSERVICE].  The graphdb reviews-by-business batch
    function builds its DAO without a service argument, so its one query
    goes to [NEO4JSERVICE]. *)
Theorem Neo4jDAO_uses_its_service {World : Type} tx_run
    (settings : Settings) (svc : Neo4jService) :
  let dao := Neo4jDAO_init settings (Some svc) in
  service dao = svc ∧
  service (Neo4jDAO_init settings None) = NEO4JSERVICE settings ∧
  (∀ user, calls_only (World := World) svc (upsert_user tx_run dao user)) ∧
  (∀ external_id name description,
     calls_only svc (upsert_business tx_run dao external_id name description)) ∧
  (∀ name description, calls_only svc (upsert_category tx_run dao name description)) ∧
  (∀ business category,
     calls_only svc (upsert_business_category tx_run dao business category)) ∧
  (∀ business author rating comment,
     calls_only svc (upsert_review tx_run dao business author rating comment)) ∧
  calls_only svc (get_businesses tx_run dao) ∧
  (∀ business_ids, calls_only svc (get_reviews_of_businesses tx_run dao business_ids)) ∧
  ∀ keys,
    calls_only (NEO4JSERVICE settings)
      (Graphdb.dataloader_business_reviews tx_run settings keys).
Proof.
  intros dao. subst dao. simpl.
  split; [done|]. split; [done|].
  split; [intros user; unfold upsert_user; one_call|].
  split; [intros ???; unfold upsert_business; one_call|].
  split; [intros ??; unfold upsert_category; one_call|].
  split; [intros ??; unfold upsert_business_category; one_call|].
  split; [intros ????; unfold upsert_review; one_call|].
  split; [unfold get_businesses; one_call|].
  split; [intros ?; unfold get_reviews_of_businesses; one_call|].
  intros keys st. unfold Graphdb.dataloader_business_reviews.
  rewrite bind_calls by done.
  unfold get_reviews_of_businesses. revert st. one_call.
Qed.

(** C6 as stated fails for the batch function: it takes no backend from its
    caller.  Under the process-wide settings it returns the reviews of the
    [NEO4JSERVICE] server, under other settings it returns none, and its one
    call is on [NEO4JSERVICE], never on a service a caller holds. *)
Lemma batch_function_reads_global_service :
  (Graphdb.dataloader_business_reviews Demo.tx_run Demo.settings
     Demo.graph_keys Demo.st0).1
    = inr [[Demo.emma_review; Demo.van_review]; [];
           [Demo.emma_review; Demo.van_review]] ∧
  (Graphdb.dataloader_business_reviews Demo.tx_run Demo.other_settings
     Demo.graph_keys Demo.st0).1
    = inr [[]; []; []] ∧
  (get_reviews_of_businesses Demo.tx_run
     (Neo4jDAO_init Demo.settings (Some Demo.fake_service))
     Demo.graph_keys Demo.st0).1
    = inr [] ∧
  call_service <$>
    calls (Graphdb.dataloader_business_reviews Demo.tx_run Demo.settings
             Demo.graph_keys Demo.st0).2
    = [NEO4JSERVICE Demo.settings] ∧
  Demo.fake_service ≠ NEO4JSERVICE Demo.settings ∧
  ¬ Graphdb.reads_no_global_backend Demo.tx_run.
Proof.
  split; [vm_compute; reflexivity|].
  split; [vm_compute; reflexivity|].
  split; [vm_compute; reflexivity|].
  split; [vm_compute; reflexivity|].
  split; [vm_compute; discriminate|].
  intros Hsame.
  specialize (Hsame Demo.settings Demo.other_settings Demo.graph_keys Demo.st0).
  apply (f_equal fst) in Hsame. vm_compute in Hsame. discriminate.
Qed.

End dao_claim.

(** ** The batch functions over list objects *)

Section objects.
Import Obj.
Context `{Countable K} {R U : Type}.
Abbreviation heap := (gmap loc (list_obj K R U)).
Implicit Types (h : heap) (d : gmap K loc) (key : R → K).

Lemma frame_refl h : frame h h.
Proof. by intros l _. Qed.

Lemma frame_trans h1 h2 h3 : frame h1 h2 → frame h2 h3 → frame h1 h3.
Proof.
  intros H12 H23 l Hl. rewrite H23, H12; [done|done|]. by rewrite H12.
Qed.

Lemma frame_alloc (o : list_obj K R U) h : frame h (alloc o h).2.
Proof.
  intros l Hl. unfold alloc. simpl. apply lookup_insert_ne.
  intros <-. apply elem_of_dom in Hl. by apply is_fresh in Hl.
Qed.

Lemma alloc_lookup (o : list_obj K R U) h :
  h !! (alloc o h).1 = None ∧ (alloc o h).2 !! (alloc o h).1 = Some o.
Proof.
  unfold alloc. simpl. split; [|apply lookup_insert_eq].
  apply not_elem_of_dom, is_fresh.
Qed.

Lemma rows_for_snoc key (acc : list R) r k :
  rows_for key (acc ++ [r]) k
  = rows_for key acc k ++ (if decide (key r = k) then [r] else []).
Proof. unfold rows_for. by rewrite filter_app, filter_cons, filter_nil. Qed.

Lemma group_inv_init key h0 : group_inv key h0 [] ∅ h0.
Proof.
  split; [apply frame_refl|..]; try done.
  all: intros *; by rewrite ?lookup_empty.
Qed.

Lemma group_inv_step key h0 acc d h r :
  group_inv key h0 acc d h →
  ∃ d' h', defaultdict_append d (key r) r h = Some (d', h') ∧
           group_inv key h0 (acc ++ [r]) d' h'.
Proof.
  intros [Hframe Hsome Hnone Hinj]. unfold defaultdict_append.
  destruct (d !! key r) as [l|] eqn:Hd.
  - destruct (Hsome _ _ Hd) as [Hl0 Hl]. unfold append. rewrite Hl. simpl.
    eexists _, _. split; [done|]. split.
    + intros l0 Hl0'. rewrite lookup_insert_ne; [by apply Hframe|].
      intros <-. rewrite Hl0 in Hl0'. by destruct Hl0'.
    + intros k l' Hk. destruct (Hsome _ _ Hk) as [Hk0 Hkl]. split; [done|].
      rewrite rows_for_snoc. destruct (decide (key r = k)) as [<-|Hne].
      * rewrite Hd in Hk. injection Hk as <-. by rewrite lookup_insert_eq.
      * rewrite lookup_insert_ne, app_nil_r; [done|].
        intros <-. apply Hne. by eapply Hinj.
    + intros k Hk. rewrite rows_for_snoc, (Hnone _ Hk).
      rewrite decide_False; [done|]. intros <-. by rewrite Hd in Hk.
    + done.
  - pose proof (alloc_lookup (Rows []) h) as [Hfresh Hnew].
    pose proof (frame_alloc (Rows []) h) as Hfa.
    destruct (alloc (Rows []) h) as [l h1]. simpl in Hfresh, Hnew, Hfa.
    unfold append. rewrite Hnew. simpl.
    assert (Hl0 : h0 !! l = None).
    { destruct (h0 !! l) eqn:E; [|done].
      rewrite <- Hframe, Hfresh in E; [done|]. by rewrite E. }
    eexists _, _. split; [done|]. split.
    + intros l0 Hl0'. rewrite lookup_insert_ne.
      * rewrite Hfa; [by apply Hframe|]. by rewrite Hframe.
      * intros <-. rewrite Hl0 in Hl0'. by destruct Hl0'.
    + intros k l'. rewrite rows_for_snoc.
      destruct (decide (key r = k)) as [<-|Hne].
      * rewrite lookup_insert_eq. intros [= <-]. split; [done|].
        by rewrite lookup_insert_eq, (Hnone _ Hd).
      * rewrite lookup_insert_ne by done. intros Hk.
        destruct (Hsome _ _ Hk) as [Hk0 Hkl]. split; [done|].
        rewrite app_nil_r, lookup_insert_ne.
        -- rewrite Hfa; [done|]. by rewrite Hkl.
        -- intros <-. by rewrite Hfresh in Hkl.
    + intros k. rewrite rows_for_snoc.
      destruct (decide (key r = k)) as [<-|Hne].
      * by rewrite lookup_insert_eq.
      * rewrite lookup_insert_ne by done. intros Hk. by rewrite (Hnone _ Hk).
    + intros k1 k2 l'.
      destruct (decide (key r = k1)) as [<-|Hne1];
        destruct (decide (key r = k2)) as [<-|Hne2]; [done|..].
      * rewrite lookup_insert_eq, lookup_insert_ne by done. intros [= <-] Hk.
        destruct (Hsome _ _ Hk) as [_ Hkl]. by rewrite Hfresh in Hkl.
      * rewrite lookup_insert_eq, lookup_insert_ne by done. intros Hk [= <-].
        destruct (Hsome _ _ Hk) as [_ Hkl]. by rewrite Hfresh in Hkl.
      * rewrite !lookup_insert_ne by done. apply Hinj.
Qed.

Lemma group_spec key h0 rows acc d h :
  group_inv key h0 acc d h →
  ∃ d' h', group key rows d h = Some (d', h') ∧
           group_inv key h0 (acc ++ rows) d' h'.
Proof.
  revert acc d h. induction rows as [|r rows IH]; intros acc d h Hinv.
  - eexists _, _. split; [done|]. by rewrite app_nil_r.
  - destruct (group_inv_step _ _ _ _ _ r Hinv) as (d1 & h1 & Hstep & Hinv1).
    destruct (IH _ _ _ Hinv1) as (d' & h' & Hrest & Hinv').
    exists d', h'. simpl. rewrite Hstep. simpl. split; [done|].
    by rewrite <- app_assoc in Hinv'.
Qed.

Lemma collect_spec d (f : K → list R) keys h :
  (∀ k l, d !! k = Some l → h !! l = Some (Rows (f k))) →
  (∀ k, d !! k = None → f k = []) →
  ∃ items h', collect d keys h = (items, h') ∧ frame h h' ∧
              Forall2 (λ pk item, h' !! item = Some (Rows (f pk))) keys items.
Proof.
  intros Hsome Hnone. revert h Hsome.
  induction keys as [|pk keys IH]; intros h Hsome.
  - eexists _, _. split; [done|]. split; [apply frame_refl|constructor].
  - cbn [collect].
    pose proof (alloc_lookup (Rows []) h) as [Hfresh Hnew].
    pose proof (frame_alloc (Rows []) h) as Hfa.
    destruct (alloc (Rows []) h) as [dflt h1]. simpl in Hfresh, Hnew, Hfa.
    destruct (IH h1) as (items & h' & Hrest & Hframe & Hitems).
    { intros k l Hk. rewrite Hfa; [by apply Hsome|]. by erewrite Hsome. }
    rewrite Hrest. eexists _, _. split; [done|].
    split; [by eapply frame_trans|]. constructor; [|done].
    unfold Py.get_default. destruct (d !! pk) as [l|] eqn:Hpk; simpl.
    + rewrite Hframe, Hfa; [by apply Hsome|by erewrite Hsome|].
      rewrite Hfa; by erewrite Hsome.
    + rewrite Hframe; [|by rewrite Hnew]. by rewrite Hnew, (Hnone _ Hpk).
Qed.

(** The loop, the second reading of [keys], the comprehension and the
    result list, from a store in which [keys] refers to the key list [ks]. *)
Lemma group_collect_spec key rows (keys : loc) ks h :
  h !! keys = Some (Keys ks) →
  ∃ d h1 items h2,
    group key rows ∅ h = Some (d, h1) ∧
    read_keys keys h1 = Some ks ∧
    collect d ks h1 = (items, h2) ∧
    (alloc (Lists items) h2).2 !! keys = Some (Keys ks) ∧
    read_lists (alloc (Lists items) h2).2 (alloc (Lists items) h2).1
      = Some (rows_for key rows <$> ks).
Proof.
  intros Hkeys.
  destruct (group_spec key h rows [] ∅ h (group_inv_init key h))
    as (d & h1 & Hgroup & [Hframe Hsome Hnone _]).
  simpl in Hsome, Hnone.
  destruct (collect_spec d (rows_for key rows) ks h1) as (items & h2 & Hc & Hf2 & Hitems).
  { intros k l Hk. by destruct (Hsome _ _ Hk). }
  { done. }
  assert (Hk1 : h1 !! keys = Some (Keys ks)).
  { rewrite Hframe; [done|]. by rewrite Hkeys. }
  exists d, h1, items, h2. split; [done|].
  split; [by unfold read_keys; rewrite Hk1|]. split; [done|].
  pose proof (alloc_lookup (Lists items) h2) as [Hfresh Hnew].
  pose proof (frame_alloc (Lists items) h2) as Hfa.
  destruct (alloc (Lists items) h2) as [l h3]. simpl in *.
  split.
  - rewrite Hfa, Hf2; [done|by rewrite Hk1|]. rewrite Hf2; by rewrite Hk1.
  - unfold read_lists. rewrite Hnew. apply mapM_Some.
    apply Forall2_fmap_r, Forall2_flip.
    eapply Forall2_impl; [exact Hitems|].
    intros pk item Hitem. simpl. unfold read_rows.
    rewrite Hfa; [by rewrite Hitem|]. by rewrite Hitem.
Qed.

(** A function that reads [keys], groups [rows ks], reads [keys] again and
    collects: it returns, leaves [keys] alone, and its result reads back as
    the grouping of the value level. *)
Lemma grouping_returns_leaving key (rows : list K → list R) (keys : loc) ks h :
  h !! keys = Some (Keys ks) →
  returns_leaving
    (λ h, ks ← read_keys keys h;
          '(d, h) ← group key (rows ks) ∅ h;
          ks ← read_keys keys h;
          let '(items, h) := collect d ks h in
          Some (alloc (Lists items) h))
    read_lists keys (rows_for key (rows ks) <$> ks) h.
Proof.
  intros Hkeys.
  destruct (group_collect_spec key (rows ks) keys ks h Hkeys)
    as (d & h1 & items & h2 & Hg & Hr & Hc & Hk & Hv).
  exists (alloc (Lists items) h2).1, (alloc (Lists items) h2).2.
  split; [|by rewrite Hkeys].
  assert (Hrk : read_keys keys h = Some ks) by (unfold read_keys; by rewrite Hkeys).
  cbv beta. rewrite Hrk. simpl. rewrite Hg. simpl.
  rewrite Hr. simpl. rewrite Hc. unfold alloc. reflexivity.
Qed.

(** A function that reads [keys] twice and allocates the list of authors. *)
Lemma indexing_returns_leaving (f : list K → list K → list (option U))
    (keys : loc) ks h :
  h !! keys = Some (Keys ks) →
  returns_leaving
    (λ h, ks ← read_keys keys h;
          ks' ← read_keys keys h;
          Some (alloc (R := R) (Authors (f ks ks')) h))
    read_authors keys (f ks ks) h.
Proof.
  intros Hkeys.
  pose proof (alloc_lookup (Authors (f ks ks)) h) as [Hfresh Hnew].
  pose proof (frame_alloc (Authors (f ks ks)) h) as Hfa.
  exists (alloc (Authors (f ks ks)) h).1, (alloc (Authors (f ks ks)) h).2.
  split; [|split].
  - cbv beta. unfold read_keys. rewrite Hkeys. reflexivity.
  - apply Hfa. by rewrite Hkeys.
  - unfold read_authors. by rewrite Hnew.
Qed.

End objects.

Section frame_claim.
Import Django.

(** C8.  For every key list, each batch function leaves the list object it
    was handed as [keys] unchanged — same elements, same order — when it
    returns: run on any store in which [keys] refers to the list [ks], each
    of them returns a new list object (the graphdb one may instead raise
    what its DAO read raises), the store still holds [ks] at [keys], and the
    new object reads back as the function's value on [ks]. *)
Theorem batch_functions_leave_keys_unchanged
    (objects : ReviewManager)
    (h : gmap Obj.loc (Obj.list_obj Z Review User)) (keys : Obj.loc) (ks : list Z)
    {World : Type} tx_run (settings : Neo4j.Settings)
    (gh : gmap Obj.loc (Obj.list_obj Neo4j.PyVal Neo4j.Review Neo4j.User))
    (gkeys : Obj.loc) (gks : list Neo4j.PyVal) (st : Neo4j.St (World := World))
    (Hkeys : h !! keys = Some (Obj.Keys ks))
    (Hgkeys : gh !! gkeys = Some (Obj.Keys gks)) :
  Obj.returns_leaving (Ariadne.get_reviews_for_businesses_obj objects keys)
    Obj.read_lists keys (Ariadne.get_reviews_for_businesses objects ks) h ∧
  Obj.returns_leaving (Ariadne.get_authors_for_reviews_obj objects keys)
    Obj.read_authors keys (Ariadne.get_authors_for_reviews objects ks) h ∧
  Obj.returns_leaving (Graphene.review_author_data_loader_obj objects keys)
    Obj.read_authors keys (Graphene.review_author_data_loader objects ks) h ∧
  Obj.returns_leaving (Graphene.business_review_data_loader_obj objects keys)
    Obj.read_lists keys (Graphene.business_review_data_loader objects ks) h ∧
  Obj.returns_leaving (Strawberry.dataloader_business_reviews_obj objects keys)
    Obj.read_lists keys (Strawberry.dataloader_business_reviews objects ks) h ∧
  Obj.returns_leaving (Strawberry.dataloader_review_author_obj objects keys)
    Obj.read_authors keys (Strawberry.dataloader_review_author objects ks) h ∧
  ∃ out gh' st',
    Graphdb.dataloader_business_reviews_obj tx_run settings gkeys gh st
      = Some (out, gh', st') ∧
    gh' !! gkeys = Some (Obj.Keys gks) ∧
    match out with
    | inl e =>
        Graphdb.dataloader_business_reviews tx_run settings gks st = (inl e, st')
    | inr l =>
        ∃ v, Graphdb.dataloader_business_reviews tx_run settings gks st = (inr v, st') ∧
             Obj.read_lists gh' l = Some v
    end.
Proof.
  rewrite get_reviews_for_businesses_eq, business_review_data_loader_eq,
    dataloader_business_reviews_eq.
  split; [exact (grouping_returns_leaving Review_business_id
                   (filter_business_id__in objects) keys ks h Hkeys)|].
  split; [exact (indexing_returns_leaving (authors_of objects) keys ks h Hkeys)|].
  split; [exact (indexing_returns_leaving (authors_of objects) keys ks h Hkeys)|].
  split; [exact (grouping_returns_leaving Review_business_id
                   (filter_business_id__in objects) keys ks h Hkeys)|].
  split; [exact (grouping_returns_leaving Review_business_id
                   (filter_business_id__in objects) keys ks h Hkeys)|].
  split; [exact (indexing_returns_leaving (authors_of objects) keys ks h Hkeys)|].
  unfold Graphdb.dataloader_business_reviews_obj.
  rewrite graphdb_dataloader_eq.
  assert (Hrk : Obj.read_keys gkeys gh = Some gks)
    by (unfold Obj.read_keys; by rewrite Hgkeys).
  rewrite Hrk. simpl.
  destruct (Neo4j.get_reviews_of_businesses _ _ _ _) as [[e|reviews] st'].
  - exists (inl e), gh, st'. split; [reflexivity|]. split; [exact Hgkeys|reflexivity].
  - destruct (group_collect_spec
                (λ r, Neo4j.Business_id (Neo4j.Review_business r))
                reviews gkeys gks gh Hgkeys)
      as (d & h1 & items & h2 & Hg & Hr & Hc & Hk & Hv).
    rewrite Hg. simpl. rewrite Hr. simpl. rewrite Hc.
    eexists _, _, _. split; [reflexivity|]. split; [exact Hk|].
    eexists. split; [reflexivity|exact Hv].
Qed.

Lemma batch_functions_leave_keys_unchanged_witness :
  Demo.heap !! Demo.keys_ref = Some (Obj.Keys Demo.business_keys) ∧
  Obj.returns_leaving
    (Graphene.business_review_data_loader_obj Demo.objects Demo.keys_ref)
    Obj.read_lists Demo.keys_ref
    (Graphene.business_review_data_loader Demo.objects Demo.business_keys)
    Demo.heap ∧
  Obj.returns_leaving
    (Ariadne.get_authors_for_reviews_obj Demo.objects Demo.keys_ref)
    Obj.read_authors Demo.keys_ref
    (Ariadne.get_authors_for_reviews Demo.objects Demo.business_keys)
    Demo.heap ∧
  ∃ out gh' st',
    Graphdb.dataloader_business_reviews_obj Demo.tx_run Demo.settings
      Demo.keys_ref Demo.graph_heap Demo.st0 = Some (out, gh', st') ∧
    gh' !! Demo.keys_ref = Some (Obj.Keys Demo.graph_keys).
Proof.
  assert (Hkeys : Demo.heap !! Demo.keys_ref = Some (Obj.Keys Demo.business_keys))
    by (vm_compute; reflexivity).
  assert (Hgkeys : Demo.graph_heap !! Demo.keys_ref = Some (Obj.Keys Demo.graph_keys))
    by (vm_compute; reflexivity).
  destruct (batch_functions_leave_keys_unchanged Demo.objects Demo.heap
              Demo.keys_ref Demo.business_keys Demo.tx_run Demo.settings
              Demo.graph_heap Demo.keys_ref Demo.graph_keys Demo.st0 Hkeys Hgkeys)
    as (_ & H2 & _ & H4 & _ & _ & out & gh' & st' & Hrun & Hleft & _).
  split; [exact Hkeys|]. split; [exact H4|]. split; [exact H2|].
  exists out, gh', st'. split; [exact Hrun|exact Hleft].
Defined.

End frame_claim.

(** * Further properties of the batch functions *)

Section slots.
Context `{EqDecision K} {R V : Type}.
Implicit Types (key : R → K) (rows : list R) (keys : list K).

Lemma filter_elem_of_cons key rows k keys :
  k ∉ keys →
  filter (λ r, key r ∈ k :: keys) rows
  ≡ₚ rows_for key rows k ++ filter (λ r, key r ∈ keys) rows.
Proof.
  intros Hk. unfold rows_for. induction rows as [|r rows IH]; [done|].
  rewrite !filter_cons.
  destruct (decide (key r = k)) as [Heq|Hne].
  - rewrite decide_True by (rewrite Heq; left).
    rewrite decide_False by (by rewrite Heq). simpl. by rewrite IH.
  - destruct (decide (key r ∈ keys)) as [Hin|Hnin].
    + rewrite decide_True by (by right). rewrite IH.
      apply Permutation_middle.
    + rewrite decide_False; [done|]. rewrite elem_of_cons. tauto.
Qed.

Lemma concat_rows_for key rows keys :
  NoDup keys →
  concat (rows_for key rows <$> keys) ≡ₚ filter (λ r, key r ∈ keys) rows.
Proof.
  induction 1 as [|k keys Hk _ IH]; simpl.
  - induction rows as [|r rows IHr]; [done|].
    rewrite filter_cons_False; [done|]. apply not_elem_of_nil.
  - by rewrite IH, filter_elem_of_cons.
Qed.

Lemma rows_for_restrict key rows keys k :
  k ∈ keys →
  rows_for key (filter (λ r, key r ∈ keys) rows) k = rows_for key rows k.
Proof.
  intros Hk. unfold rows_for. induction rows as [|r rows IH]; [done|].
  rewrite !filter_cons.
  destruct (decide (key r = k)) as [Heq|Hne].
  - rewrite decide_True by (by rewrite Heq).
    rewrite filter_cons, decide_True by done. by rewrite IH.
  - destruct (decide (key r ∈ keys)); [|done].
    by rewrite filter_cons, decide_False.
Qed.

Lemma last_for_last_match key (val : R → V) before r after :
  (∀ r', r' ∈ after → key r' ≠ key r) →
  last_for key val (before ++ r :: after) (key r) = Some (val r).
Proof.
  intros Hafter. unfold last_for, rows_for.
  rewrite filter_app, filter_cons_True by done.
  fold (rows_for key after (key r)). rewrite (rows_for_none _ _ _ Hafter).
  by rewrite last_snoc.
Qed.

Lemma rows_for_unique key rows r :
  NoDup (key <$> rows) → r ∈ rows → rows_for key rows (key r) = [r].
Proof.
  intros Hnd Hr. unfold rows_for. induction rows as [|r0 rows IH]; [by inversion Hr|].
  rewrite fmap_cons in Hnd. apply NoDup_cons in Hnd as [Hr0 Hnd].
  rewrite filter_cons. apply elem_of_cons in Hr as [->|Hr].
  - rewrite decide_True by done. f_equal.
    apply (rows_for_none key rows (key r0)). intros r' Hr' Heq.
    apply Hr0. rewrite <- Heq. by apply list_elem_of_fmap_2.
  - rewrite decide_False; [by apply IH|].
    intros Heq. apply Hr0. rewrite Heq. by apply list_elem_of_fmap_2.
Qed.

End slots.

Section slot_properties.
Import Django.

Lemma table_reviews_slots (rows : list Review) (keys : list Z) :
  rows_for Review_business_id (filter_business_id__in (table_objects rows) keys) <$> keys
  = rows_for Review_business_id rows <$> keys.
Proof.
  apply list_fmap_ext. intros i k Hk. simpl.
  apply (rows_for_restrict Review_business_id). by eapply list_elem_of_lookup_2.
Qed.

Lemma table_author_slots (rows : list Review) (keys : list Z) :
  last_for Review_id Review_user (filter_id__in (table_objects rows) keys) <$> keys
  = last_for Review_id Review_user rows <$> keys.
Proof.
  apply list_fmap_ext. intros i k Hk. simpl. unfold last_for.
  by rewrite (rows_for_restrict Review_id) by (by eapply list_elem_of_lookup_2).
Qed.

(** X1.  Over distinct keys the slots of a reviews-by-business result
    partition the returned reviews whose business is among the keys: put
    end to end they are a permutation of those reviews, so no review is
    lost and none is handed out twice.  Over an in-memory table these are
    the table's reviews of the asked businesses. *)
Theorem reviews_partitioned_over_distinct_keys
    (objects : ReviewManager) (keys : list Z) (Hkeys : NoDup keys) :
  let returned := filter_business_id__in objects keys in
  concat (Ariadne.get_reviews_for_businesses objects keys)
    ≡ₚ filter (λ r, Review_business_id r ∈ keys) returned ∧
  concat (Graphene.business_review_data_loader objects keys)
    ≡ₚ filter (λ r, Review_business_id r ∈ keys) returned ∧
  concat (Strawberry.dataloader_business_reviews objects keys)
    ≡ₚ filter (λ r, Review_business_id r ∈ keys) returned ∧
  (∀ rows,
     concat (Ariadne.get_reviews_for_businesses (table_objects rows) keys)
       ≡ₚ filter (λ r, Review_business_id r ∈ keys) rows ∧
     concat (Graphene.business_review_data_loader (table_objects rows) keys)
       ≡ₚ filter (λ r, Review_business_id r ∈ keys) rows ∧
     concat (Strawberry.dataloader_business_reviews (table_objects rows) keys)
       ≡ₚ filter (λ r, Review_business_id r ∈ keys) rows).
Proof.
  intros returned. subst returned.
  rewrite get_reviews_for_businesses_eq, business_review_data_loader_eq,
    dataloader_business_reviews_eq.
  repeat split; try by apply concat_rows_for.
  all: rewrite ?get_reviews_for_businesses_eq, ?business_review_data_loader_eq,
         ?dataloader_business_reviews_eq, table_reviews_slots;
       by apply concat_rows_for.
Qed.

Lemma reviews_partitioned_over_distinct_keys_witness :
  concat (Graphene.business_review_data_loader Demo.objects [2; 3; 1])
    ≡ₚ filter (λ r, Review_business_id r ∈ [2; 3; 1]) Demo.rows.
Proof.
  assert (Hkeys : NoDup [2; 3; 1]) by (apply (bool_decide_unpack _); vm_compute; exact I).
  exact (proj1 (proj2 (proj2 (proj2 (proj2
    (reviews_partitioned_over_distinct_keys Demo.objects [2; 3; 1] Hkeys)))
    Demo.rows))).
Defined.

(** X2.  When the backend returns several reviews with the same id, the
    author functions answer with the user of the last of them: a returned
    row [r] that no later returned row shares its id with decides every slot
    keyed by its id. *)
Theorem author_of_last_returned_row
    (objects : ReviewManager) (keys : list Z) (i : nat)
    (before after : list Review) (r : Review)
    (Hi : keys !! i = Some (Review_id r))
    (Hreturned : filter_id__in objects keys = before ++ r :: after)
    (Hlast : ∀ r', r' ∈ after → Review_id r' ≠ Review_id r) :
  Ariadne.get_authors_for_reviews objects keys !! i = Some (Some (Review_user r)) ∧
  Graphene.review_author_data_loader objects keys !! i = Some (Some (Review_user r)) ∧
  Strawberry.dataloader_review_author objects keys !! i = Some (Some (Review_user r)).
Proof.
  rewrite get_authors_for_reviews_eq, review_author_data_loader_eq,
    dataloader_review_author_eq.
  rewrite list_lookup_fmap, Hi, Hreturned. simpl.
  by rewrite (last_for_last_match Review_id Review_user before r after Hlast).
Qed.

Lemma author_of_last_returned_row_witness :
  Graphene.review_author_data_loader Demo.doubled_objects [7] !! 0%nat
    = Some (Some Demo.van) ∧
  Ariadne.get_authors_for_reviews Demo.doubled_objects [7] !! 0%nat
    = Some (Some Demo.van).
Proof.
  assert (Hlast : ∀ r', r' ∈ ([] : list Review) →
                        Review_id r' ≠ Review_id Demo.van_row7)
    by (intros r' Hr'; by apply elem_of_nil in Hr').
  destruct (author_of_last_returned_row Demo.doubled_objects [7] 0
              [Demo.emma_row7] [] Demo.van_row7 eq_refl eq_refl Hlast)
    as (H1 & H2 & _).
  split; [exact H2|exact H1].
Defined.

(** X3.  Over a table whose review ids are unique (the primary key), the
    author functions answer every slot keyed by the id of a stored review
    with that review's own user — what the resolvers' direct path
    [review.user] returns. *)
Theorem author_of_stored_review
    (rows : list Review) (keys : list Z) (i : nat) (r : Review)
    (Hunique : NoDup (Review_id <$> rows))
    (Hr : r ∈ rows)
    (Hi : keys !! i = Some (Review_id r)) :
  Ariadne.get_authors_for_reviews (table_objects rows) keys !! i
    = Some (Some (Review_user r)) ∧
  Graphene.review_author_data_loader (table_objects rows) keys !! i
    = Some (Some (Review_user r)) ∧
  Strawberry.dataloader_review_author (table_objects rows) keys !! i
    = Some (Some (Review_user r)).
Proof.
  rewrite get_authors_for_reviews_eq, review_author_data_loader_eq,
    dataloader_review_author_eq, table_author_slots.
  rewrite list_lookup_fmap, Hi. simpl. unfold last_for.
  by rewrite (rows_for_unique Review_id rows r Hunique Hr).
Qed.

Lemma author_of_stored_review_witness :
  Strawberry.dataloader_review_author Demo.objects Demo.review_keys !! 2%nat
    = Some (Some Demo.van).
Proof.
  assert (Hunique : NoDup (Review_id <$> Demo.rows))
    by (apply (bool_decide_unpack _); vm_compute; exact I).
  assert (Hr : Django.mkReview 2 1 Demo.van 4 "Food is good but too expensive."
               ∈ Demo.rows) by (apply (bool_decide_unpack _); vm_compute; exact I).
  exact (proj2 (proj2 (author_of_stored_review Demo.rows Demo.review_keys 2 _
                         Hunique Hr eq_refl))).
Defined.

(** X4.  Over an in-memory table the answer for a key does not depend on
    the batch it travels in: whatever other keys stand beside it and at
    whichever position, each batch function returns a value for it, and
    the same value in either batch — the table's reviews of that business,
    or the user of the last stored review with that id. *)
Theorem answer_independent_of_batch
    (rows : list Review) (keys keys' : list Z) (i j : nat) (k : Z)
    (Hi : keys !! i = Some k) (Hj : keys' !! j = Some k) :
  let objects := table_objects rows in
  let reviews := filter (λ r, Review_business_id r = k) rows in
  let author := Review_user <$> last (filter (λ r, Review_id r = k) rows) in
  (Ariadne.get_reviews_for_businesses objects keys !! i = Some reviews ∧
   Ariadne.get_reviews_for_businesses objects keys' !! j = Some reviews) ∧
  (Graphene.business_review_data_loader objects keys !! i = Some reviews ∧
   Graphene.business_review_data_loader objects keys' !! j = Some reviews) ∧
  (Strawberry.dataloader_business_reviews objects keys !! i = Some reviews ∧
   Strawberry.dataloader_business_reviews objects keys' !! j = Some reviews) ∧
  (Ariadne.get_authors_for_reviews objects keys !! i = Some author ∧
   Ariadne.get_authors_for_reviews objects keys' !! j = Some author) ∧
  (Graphene.review_author_data_loader objects keys !! i = Some author ∧
   Graphene.review_author_data_loader objects keys' !! j = Some author) ∧
  (Strawberry.dataloader_review_author objects keys !! i = Some author ∧
   Strawberry.dataloader_review_author objects keys' !! j = Some author).
Proof.
  intros objects reviews author. subst objects reviews author.
  rewrite ?get_reviews_for_businesses_eq, ?business_review_data_loader_eq,
    ?dataloader_business_reviews_eq, ?get_authors_for_reviews_eq,
    ?review_author_data_loader_eq, ?dataloader_review_author_eq.
  rewrite !table_reviews_slots, !table_author_slots.
  rewrite !list_lookup_fmap, Hi, Hj. simpl.
  repeat split; reflexivity.
Qed.

Lemma answer_independent_of_batch_witness :
  (Graphene.business_review_data_loader Demo.objects Demo.business_keys !! 0%nat
     = Some (filter (λ r, Review_business_id r = 1) Demo.rows) ∧
   Graphene.business_review_data_loader Demo.objects [2; 1] !! 1%nat
     = Some (filter (λ r, Review_business_id r = 1) Demo.rows)) ∧
  (Graphene.review_author_data_loader Demo.objects Demo.business_keys !! 0%nat
     = Some (Some Demo.emma) ∧
   Graphene.review_author_data_loader Demo.objects [2; 1] !! 1%nat
     = Some (Some Demo.emma)).
Proof.
  destruct (answer_independent_of_batch Demo.rows Demo.business_keys [2; 1]
              0 1 1 eq_refl eq_refl) as (_ & H2 & _ & _ & H5 & _).
  split; [exact H2|exact H5].
Defined.

End slot_properties.

(** * Further properties of the batch functions over list objects *)

Section result_objects.
Import Obj ObjResult.
Context `{Countable K} {R U : Type}.
Abbreviation heap := (gmap loc (list_obj K R U)).
Implicit Types (h : heap) (d : gmap K loc) (key : R → K).

Lemma rows_for_nonempty key (rows : list R) k :
  rows_for key rows k ≠ [] ↔ ∃ r, r ∈ rows ∧ key r = k.
Proof.
  split.
  - intros Hne. destruct (rows_for key rows k) as [|r l] eqn:E; [done|].
    exists r. assert (Hr : r ∈ rows_for key rows k) by (rewrite E; left).
    apply list_elem_of_filter in Hr as [? ?]. done.
  - intros (r & Hr & Hk) Hnil.
    assert (Hin : r ∈ rows_for key rows k) by (by apply list_elem_of_filter).
    rewrite Hnil in Hin. by apply elem_of_nil in Hin.
Qed.

Lemma defaultdict_append_dom d k (r : R) h d1 h1 :
  defaultdict_append d k r h = Some (d1, h1) →
  ∀ k', is_Some (d1 !! k') ↔ is_Some (d !! k') ∨ k' = k.
Proof.
  unfold defaultdict_append. intros Hrun k'.
  destruct (d !! k) as [l|] eqn:Hd.
  - destruct (append l r h); [|done]. injection Hrun as <- <-.
    split; [by left|]. intros [?| ->]; [done|by rewrite Hd].
  - destruct (alloc (Rows []) h) as [l h0].
    destruct (append l r h0); [|done]. injection Hrun as <- <-.
    destruct (decide (k = k')) as [->|Hne].
    + rewrite lookup_insert_eq. split; [by right|by eexists].
    + rewrite lookup_insert_ne by done.
      split; [by left|]. intros [?|?]; [done|congruence].
Qed.

Lemma group_dom key (rows : list R) d h d' h' :
  group key rows d h = Some (d', h') →
  ∀ k, is_Some (d' !! k) ↔ is_Some (d !! k) ∨ ∃ r, r ∈ rows ∧ key r = k.
Proof.
  revert d h. induction rows as [|r rows IH]; intros d h Hrun k.
  - injection Hrun as <- <-. split; [by left|].
    intros [?|(r & Hr & _)]; [done|by apply elem_of_nil in Hr].
  - cbn [group] in Hrun.
    destruct (defaultdict_append d (key r) r h) as [[d1 h1]|] eqn:Hstep; [|done].
    simpl in Hrun. rewrite (IH _ _ Hrun k), (defaultdict_append_dom _ _ _ _ _ _ Hstep k).
    split.
    + intros [[?| ->]|(r' & Hr' & Hk)].
      * by left.
      * right. exists r. split; [left|done].
      * right. exists r'. split; [by right|done].
    + intros [?|(r' & Hr' & Hk)]; [by left; left|].
      apply elem_of_cons in Hr' as [->|Hr']; [by left; right|].
      right. by exists r'.
Qed.

(** The comprehension, slot by slot: a key the dict binds gets the dict's
    list, any other key a list that did not exist before, and such a new
    list stands at no other position. *)
Lemma collect_items d keys h items h' :
  (∀ k l, d !! k = Some l → is_Some (h !! l)) →
  collect d keys h = (items, h') →
  Forall2 (λ pk item, match d !! pk with
                      | Some l => item = l
                      | None => h !! item = None
                      end) keys items ∧
  ∀ (i j : nat) pk item, i ≠ j → keys !! i = Some pk → d !! pk = None →
    items !! i = Some item → items !! j ≠ Some item.
Proof.
  intros Hd. revert h items h' Hd.
  induction keys as [|pk0 keys IH]; intros h items h' Hd Hrun.
  - injection Hrun as <- <-. split; [constructor|]. by intros [|i] j.
  - cbn [collect] in Hrun.
    pose proof (alloc_lookup (Rows []) h) as [Hfresh Hnew].
    pose proof (frame_alloc (Rows []) h) as Hfa.
    destruct (alloc (Rows []) h) as [dflt h1]. simpl in Hfresh, Hnew, Hfa.
    destruct (collect d keys h1) as [items1 h2] eqn:Hrest.
    injection Hrun as <- <-.
    assert (Hd1 : ∀ k l, d !! k = Some l → is_Some (h1 !! l)).
    { intros k l Hk. rewrite Hfa; by eapply Hd. }
    destruct (IH _ _ _ Hd1 Hrest) as [Hitems Hdistinct].
    assert (Hitems1 : ∀ (j : nat) item, items1 !! j = Some item →
              h1 !! item = None ∨ ∃ k, d !! k = Some item).
    { intros j item Hj.
      destruct (Forall2_lookup_r _ _ _ _ _ Hitems Hj) as (pk & _ & Hpk).
      destruct (d !! pk) as [l|] eqn:E; [right; exists pk; by subst|by left]. }
    split.
    + constructor.
      * unfold Py.get_default. by destruct (d !! pk0).
      * eapply Forall2_impl; [exact Hitems|]. intros pk item. simpl.
        destruct (d !! pk); [done|]. intros Hnone.
        destruct (h !! item) eqn:E; [|done].
        rewrite <- Hfa, Hnone in E; [done|]. by rewrite E.
    + intros [|i] [|j] pk item Hij Hi Hpk Hitem; [done|..].
      * simpl in Hi, Hitem. injection Hi as ->. unfold Py.get_default in Hitem.
        rewrite Hpk in Hitem. injection Hitem as <-. simpl. intros Hj.
        destruct (Hitems1 _ _ Hj) as [Hn|(k & Hk)]; [by rewrite Hnew in Hn|].
        destruct (Hd _ _ Hk) as [? Hsome]. by rewrite Hfresh in Hsome.
      * simpl in Hi, Hitem. simpl. intros [= Hj].
        destruct (Forall2_lookup_l _ _ _ _ _ Hitems Hi) as (item' & Hitem' & Hpk').
        rewrite Hpk in Hpk'. rewrite Hitem in Hitem'. injection Hitem' as <-.
        unfold Py.get_default in Hj. destruct (d !! pk0) as [l|] eqn:E; simpl in Hj.
        -- subst l. destruct (Hd1 _ _ E) as [? Hsome]. by rewrite Hpk' in Hsome.
        -- subst dflt. by rewrite Hnew in Hpk'.
      * simpl in Hi, Hitem. simpl. eapply Hdistinct; [|done..]. congruence.
Qed.

(** The loop, the comprehension and the result list together: besides the
    value of the result, which objects it is made of. *)
Lemma group_collect_objects key rows (keys : loc) ks h :
  h !! keys = Some (Keys ks) →
  ∃ d h1 items h2,
    group key rows ∅ h = Some (d, h1) ∧
    read_keys keys h1 = Some ks ∧
    collect d ks h1 = (items, h2) ∧
    (alloc (Lists items) h2).2 !! (alloc (Lists items) h2).1 = Some (Lists items) ∧
    result_is_new h (alloc (Lists items) h2).2 (alloc (Lists items) h2).1 ∧
    slots_shared_iff key rows ks items.
Proof.
  intros Hkeys.
  destruct (group_spec key h rows [] ∅ h (group_inv_init key h))
    as (d & h1 & Hgroup & [Hframe Hsome Hnone Hinj]).
  simpl in Hsome, Hnone.
  pose proof (group_dom _ _ _ _ _ _ Hgroup) as Hdom.
  destruct (collect d ks h1) as [items h2] eqn:Hc.
  assert (Hd1 : ∀ k l, d !! k = Some l → is_Some (h1 !! l)).
  { intros k l Hk. destruct (Hsome _ _ Hk) as [_ ->]. by eexists. }
  destruct (collect_items _ _ _ _ _ Hd1 Hc) as [Hitems Hdistinct].
  destruct (collect_spec d (rows_for key rows) ks h1) as (items' & h2' & Hc' & Hf2 & _).
  { intros k l Hk. by destruct (Hsome _ _ Hk). }
  { done. }
  rewrite Hc in Hc'. injection Hc' as <- <-.
  assert (Hk1 : h1 !! keys = Some (Keys ks)).
  { rewrite Hframe; [done|]. by rewrite Hkeys. }
  exists d, h1, items, h2. split; [done|].
  split; [by unfold read_keys; rewrite Hk1|]. split; [done|].
  pose proof (alloc_lookup (Lists items) h2) as [Hfresh Hnew].
  pose proof (frame_alloc (Lists items) h2) as Hfa.
  assert (Hf : frame h h2) by (by eapply frame_trans).
  split; [done|]. split; [split; [|split]|].
  - by eapply frame_trans.
  - destruct (h !! (alloc (Lists items) h2).1) eqn:E; [|done].
    rewrite <- Hf, Hfresh in E; [done|]. by rewrite E.
  - rewrite Hnew. apply Forall_forall. intros item Hin.
    apply list_elem_of_lookup in Hin as [j Hj].
    destruct (Forall2_lookup_r _ _ _ _ _ Hitems Hj) as (pk & _ & Hpk).
    destruct (d !! pk) as [l|] eqn:E.
    + subst item. by destruct (Hsome _ _ E).
    + destruct (h !! item) eqn:E'; [|done].
      rewrite <- Hframe, Hpk in E'; [done|]. by rewrite E'.
  - split; [symmetry; by eapply Forall2_length|].
    intros i j ki kj Hij Hi Hj.
    destruct (Forall2_lookup_l _ _ _ _ _ Hitems Hi) as (ii & Hii & Hki).
    destruct (Forall2_lookup_l _ _ _ _ _ Hitems Hj) as (ij & Hij' & Hkj).
    assert (Hbound : ∀ k, is_Some (d !! k) ↔ rows_for key rows k ≠ []).
    { intros k. rewrite Hdom, rows_for_nonempty, lookup_empty.
      split; [intros [[? ?]|?]; done|by right]. }
    rewrite Hii, Hij'. split.
    + intros [= <-].
      destruct (d !! ki) as [li|] eqn:Eki.
      * destruct (d !! kj) as [lj|] eqn:Ekj.
        -- subst. split; [by eapply Hinj|]. apply Hbound. by rewrite Eki.
        -- exfalso. eapply (Hdistinct j i); [by intros ->|done..].
      * exfalso. by eapply (Hdistinct i j).
    + intros [<- Hne]. apply Hbound in Hne as [l Hl].
      rewrite Hl in Hki, Hkj. by subst.
Qed.

End result_objects.

Section result_object_shapes.
Import Obj ObjResult.
Context `{Countable K} {R U : Type}.
Abbreviation heap := (gmap loc (list_obj K R U)).

Lemma grouping_result_objects (key : R → K) (rows : list K → list R)
    (keys : loc) ks (h : heap) :
  h !! keys = Some (Keys ks) →
  ∃ l h' items,
    (ks ← read_keys keys h;
     '(d, h) ← group key (rows ks) ∅ h;
     ks ← read_keys keys h;
     let '(items, h) := collect d ks h in
     Some (alloc (Lists items) h)) = Some (l, h') ∧
    h' !! l = Some (Lists items) ∧
    result_is_new h h' l ∧
    slots_shared_iff key (rows ks) ks items.
Proof.
  intros Hkeys.
  destruct (group_collect_objects key (rows ks) keys ks h Hkeys)
    as (d & h1 & items & h2 & Hg & Hr & Hc & Hl & Hnew & Hshared).
  exists (alloc (Lists items) h2).1, (alloc (Lists items) h2).2, items.
  split; [|done].
  assert (Hrk : read_keys keys h = Some ks) by (unfold read_keys; by rewrite Hkeys).
  rewrite Hrk. simpl. rewrite Hg. simpl. rewrite Hr. simpl. rewrite Hc.
  unfold alloc. reflexivity.
Qed.

Lemma indexing_result_objects (f : list K → list K → list (option U))
    (keys : loc) ks (h : heap) :
  h !! keys = Some (Keys ks) →
  ∃ l h',
    (ks ← read_keys keys h;
     ks' ← read_keys keys h;
     Some (alloc (R := R) (Authors (f ks ks')) h)) = Some (l, h') ∧
    result_is_new h h' l.
Proof.
  intros Hkeys.
  pose proof (alloc_lookup (Authors (f ks ks)) h) as [Hfresh Hnew].
  pose proof (frame_alloc (Authors (f ks ks)) h) as Hfa.
  exists (alloc (Authors (f ks ks)) h).1, (alloc (Authors (f ks ks)) h).2.
  split.
  - unfold read_keys. rewrite Hkeys. reflexivity.
  - split; [done|]. split; [done|]. by rewrite Hnew.
Qed.

End result_object_shapes.

Section result_object_properties.
Import Django.

(** X5.  In the list a reviews-by-business function returns, two different
    positions hold the very same list object exactly when they carry the
    same key and that business has returned reviews: [d.get(pk, [])] hands
    out the dict's own list for a key with reviews, and a new empty list at
    every position without.  The same holds for the graphdb function
    whenever its DAO read returns. *)
Theorem result_slots_shared_iff_same_reviewed_key
    (objects : ReviewManager)
    (h : gmap Obj.loc (Obj.list_obj Z Review User)) (keys : Obj.loc) (ks : list Z)
    (Hkeys : h !! keys = Some (Obj.Keys ks)) :
  let returned := filter_business_id__in objects ks in
  (∃ l h' items,
     Ariadne.get_reviews_for_businesses_obj objects keys h = Some (l, h') ∧
     h' !! l = Some (Obj.Lists items) ∧
     ObjResult.slots_shared_iff Review_business_id returned ks items) ∧
  (∃ l h' items,
     Graphene.business_review_data_loader_obj objects keys h = Some (l, h') ∧
     h' !! l = Some (Obj.Lists items) ∧
     ObjResult.slots_shared_iff Review_business_id returned ks items) ∧
  (∃ l h' items,
     Strawberry.dataloader_business_reviews_obj objects keys h = Some (l, h') ∧
     h' !! l = Some (Obj.Lists items) ∧
     ObjResult.slots_shared_iff Review_business_id returned ks items) ∧
  ∀ (World : Type) tx_run (settings : Neo4j.Settings)
    (gh : gmap Obj.loc (Obj.list_obj Neo4j.PyVal Neo4j.Review Neo4j.User))
    (gkeys : Obj.loc) (gks : list Neo4j.PyVal)
    (st st' : Neo4j.St (World := World)) (reviews : list Neo4j.Review),
    gh !! gkeys = Some (Obj.Keys gks) →
    Neo4j.get_reviews_of_businesses tx_run
      (Neo4j.Neo4jDAO_init settings None) gks st = (inr reviews, st') →
    ∃ l gh' items,
      Graphdb.dataloader_business_reviews_obj tx_run settings gkeys gh st
        = Some (inr l, gh', st') ∧
      gh' !! l = Some (Obj.Lists items) ∧
      ObjResult.slots_shared_iff
        (λ r, Neo4j.Business_id (Neo4j.Review_business r)) reviews gks items.
Proof.
  intros returned. subst returned.
  pose proof (grouping_result_objects Review_business_id
                (filter_business_id__in objects) keys ks h Hkeys)
    as (l & h' & items & Hrun & Hl & _ & Hshared).
  split; [by exists l, h', items|]. split; [by exists l, h', items|].
  split; [by exists l, h', items|].
  intros World tx_run settings gh gkeys gks st st' reviews Hgkeys Hread.
  unfold Graphdb.dataloader_business_reviews_obj.
  assert (Hrk : Obj.read_keys gkeys gh = Some gks)
    by (unfold Obj.read_keys; by rewrite Hgkeys).
  rewrite Hrk. simpl. rewrite Hread.
  destruct (group_collect_objects
              (λ r, Neo4j.Business_id (Neo4j.Review_business r))
              reviews gkeys gks gh Hgkeys)
    as (d & h1 & gitems & h2 & Hg & Hr & Hc & Hgl & _ & Hgshared).
  rewrite Hg. simpl. rewrite Hr. simpl. rewrite Hc.
  eexists _, _, gitems. split; [reflexivity|]. split; [exact Hgl|exact Hgshared].
Qed.

(** X6.  Every batch function builds its result out of new objects and
    leaves the caller's store alone: every list object that existed before
    the call is unchanged after it, the returned list did not exist before,
    and neither did any of the lists a reviews-by-business result holds. *)
Theorem batch_functions_return_new_objects
    (objects : ReviewManager)
    (h : gmap Obj.loc (Obj.list_obj Z Review User)) (keys : Obj.loc) (ks : list Z)
    (Hkeys : h !! keys = Some (Obj.Keys ks)) :
  (∃ l h', Ariadne.get_reviews_for_businesses_obj objects keys h = Some (l, h') ∧
           ObjResult.result_is_new h h' l) ∧
  (∃ l h', Ariadne.get_authors_for_reviews_obj objects keys h = Some (l, h') ∧
           ObjResult.result_is_new h h' l) ∧
  (∃ l h', Graphene.review_author_data_loader_obj objects keys h = Some (l, h') ∧
           ObjResult.result_is_new h h' l) ∧
  (∃ l h', Graphene.business_review_data_loader_obj objects keys h = Some (l, h') ∧
           ObjResult.result_is_new h h' l) ∧
  (∃ l h', Strawberry.dataloader_business_reviews_obj objects keys h = Some (l, h') ∧
           ObjResult.result_is_new h h' l) ∧
  (∃ l h', Strawberry.dataloader_review_author_obj objects keys h = Some (l, h') ∧
           ObjResult.result_is_new h h' l) ∧
  ∀ (World : Type) tx_run (settings : Neo4j.Settings)
    (gh : gmap Obj.loc (Obj.list_obj Neo4j.PyVal Neo4j.Review Neo4j.User))
    (gkeys : Obj.loc) (gks : list Neo4j.PyVal)
    (st st' : Neo4j.St (World := World)) (reviews : list Neo4j.Review),
    gh !! gkeys = Some (Obj.Keys gks) →
    Neo4j.get_reviews_of_businesses tx_run
      (Neo4j.Neo4jDAO_init settings None) gks st = (inr reviews, st') →
    ∃ l gh',
      Graphdb.dataloader_business_reviews_obj tx_run settings gkeys gh st
        = Some (inr l, gh', st') ∧
      ObjResult.result_is_new gh gh' l.
Proof.
  pose proof (grouping_result_objects Review_business_id
                (filter_business_id__in objects) keys ks h Hkeys)
    as (l & h' & items & Hrun & _ & Hnew & _).
  pose proof (indexing_result_objects (authors_of objects) keys ks h Hkeys)
    as (la & ha & Hruna & Hnewa).
  split; [by exists l, h'|]. split; [by exists la, ha|].
  split; [by exists la, ha|]. split; [by exists l, h'|].
  split; [by exists l, h'|]. split; [by exists la, ha|].
  intros World tx_run settings gh gkeys gks st st' reviews Hgkeys Hread.
  unfold Graphdb.dataloader_business_reviews_obj.
  assert (Hrk : Obj.read_keys gkeys gh = Some gks)
    by (unfold Obj.read_keys; by rewrite Hgkeys).
  rewrite Hrk. simpl. rewrite Hread.
  destruct (group_collect_objects
              (λ r, Neo4j.Business_id (Neo4j.Review_business r))
              reviews gkeys gks gh Hgkeys)
    as (d & h1 & gitems & h2 & Hg & Hr & Hc & _ & Hnew' & _).
  rewrite Hg. simpl. rewrite Hr. simpl. rewrite Hc.
  eexists _, _. split; [reflexivity|exact Hnew'].
Qed.

Lemma result_slots_shared_iff_same_reviewed_key_witness :
  ∃ l h' items,
    Graphene.business_review_data_loader_obj Demo.objects Demo.keys_ref Demo.heap
      = Some (l, h') ∧
    h' !! l = Some (Obj.Lists items) ∧
    items !! 0%nat = items !! 2%nat.
Proof.
  assert (Hkeys : Demo.heap !! Demo.keys_ref = Some (Obj.Keys Demo.business_keys))
    by (vm_compute; reflexivity).
  destruct (result_slots_shared_iff_same_reviewed_key Demo.objects Demo.heap
              Demo.keys_ref Demo.business_keys Hkeys)
    as (_ & (l & h' & items & Hrun & Hl & _ & Hshared) & _).
  exists l, h', items. split; [exact Hrun|]. split; [exact Hl|].
  apply (Hshared 0%nat 2%nat 1 1); [done|reflexivity|reflexivity|].
  split; [reflexivity|]. vm_compute. discriminate.
Defined.

Lemma batch_functions_return_new_objects_witness :
  ∃ l h',
    Ariadne.get_authors_for_reviews_obj Demo.objects Demo.keys_ref Demo.heap
      = Some (l, h') ∧
    ObjResult.result_is_new Demo.heap h' l.
Proof.
  assert (Hkeys : Demo.heap !! Demo.keys_ref = Some (Obj.Keys Demo.business_keys))
    by (vm_compute; reflexivity).
  exact (proj1 (proj2 (batch_functions_return_new_objects Demo.objects Demo.heap
                         Demo.keys_ref Demo.business_keys Hkeys))).
Defined.

End result_object_properties.

(** * Further properties of the Neo4j service and DAO *)

Section result_monad.
Import Neo4j Neo4jErrors.

Lemma mapM_result_cons {A B} (f : A → result B) (x : A) (l : list A) :
  mapM f (x :: l)
  = match f x with
    | inl e => inl e
    | inr y => match mapM f l with
               | inl e => inl e
               | inr k => inr (y :: k)
               end
    end.
Proof. reflexivity. Qed.

Lemma mapM_inr {A B} (f : A → result B) (l : list A) (k : list B) :
  mapM f l = inr k ↔ Forall2 (λ x y, f x = inr y) l k.
Proof.
  revert k. induction l as [|x l IH]; intros k.
  - split.
    + intros [= <-]. constructor.
    + intros Hk. by inversion Hk.
  - rewrite mapM_result_cons. split.
    + destruct (f x) as [e|y] eqn:Hx; [done|].
      destruct (mapM f l) as [e|k'] eqn:Hl; [done|].
      intros [= <-]. constructor; [done|]. by apply IH.
    + intros Hk. inversion Hk as [|x' y l' k' Hx Hrest]; subst.
      rewrite Hx. apply IH in Hrest. by rewrite Hrest.
Qed.









End result_monad.

Section dao_properties.
Import Neo4j Neo4jErrors.
Context {World : Type}.
Variable tx_run :
  Driver → AccessMode → string → option (list (string * Param)) →
  World → list Record_ * World.

Lemma mapM_inl {A B} (f : A → result B) (l : list A) (e : exn) :
  mapM f l = inl e → ∃ x, x ∈ l ∧ f x = inl e.
Proof.
  induction l as [|x l IH]; [done|]. rewrite mapM_result_cons.
  destruct (f x) as [e'|y] eqn:Hx.
  - intros [= ->]. exists x. split; [left|done].
  - destruct (mapM f l) as [e'|k]; [|done].
    intros [= ->]. destruct IH as (x' & Hin & Hx'); [done|].
    exists x'. split; [by right|done].
Qed.

Lemma mapM_returns {A B} (f : A → result B) (l : list A) :
  (∃ k, mapM f l = inr k) ↔ Forall (λ x, ∃ y, f x = inr y) l.
Proof.
  induction l as [|x l IH].
  - split; [constructor|]. intros _. by exists [].
  - rewrite mapM_result_cons, Forall_cons, <- IH. split.
    + intros [k Hk]. destruct (f x) as [e|y]; [done|].
      destruct (mapM f l) as [e|k']; [done|]. split; by eexists.
    + intros [[y ->] [k ->]]. by eexists.
Qed.

Lemma relationship_column rec (rv : Review) :
  (rel ← record_relationship (Some rec) "r"; Review_from_relationship rel) = inr rv
  ↔ ∃ rel u b,
      Record_relationships rec !! "r" = Some rel ∧
      start_node rel = Some u ∧ end_node rel = Some b ∧
      rv = mkReview (VStr (element_id rel))
             (default VNone (Relationship_properties rel !! "rating"))
             (default VNone (Relationship_properties rel !! "comment"))
             (mkUser (default VNone (Node_properties u !! "externalID"))
                     (default VNone (Node_properties u !! "name"))
                     (default VNone (Node_properties u !! "email")))
             (mkBusiness (default VNone (Node_properties b !! "externalID"))
                         (default VNone (Node_properties b !! "name"))
                         (default VNone (Node_properties b !! "description"))).
Proof.
  unfold record_relationship, mbind, result_bind.
  destruct (Record_relationships rec !! "r") as [rel|]; simpl.
  - unfold Review_from_relationship, User_from_node, Business_from_node,
      subscript, getitem.
    destruct rel as [eid props [u|] [b|]]; simpl.
    + split.
      * intros [= <-]. by eexists _, u, b.
      * by intros (rel & u' & b' & [= <-] & [= <-] & [= <-] & ->).
    + split; [done|]. by intros (rel & u' & b' & [= <-] & _ & [=] & _).
    + split; [done|]. by intros (rel & u' & b' & [= <-] & [=] & _).
    + split; [done|]. by intros (rel & u' & b' & [= <-] & [=] & _).
  - split; [done|]. by intros (? & ? & ? & [=] & _).
Qed.

Lemma relationship_column_raises rec (e : exn) :
  (rel ← record_relationship (Some rec) "r"; Review_from_relationship rel) = inl e →
  e = KeyError "r" ∨ e = TypeError.
Proof.
  unfold record_relationship, mbind, result_bind.
  destruct (Record_relationships rec !! "r") as [rel|]; simpl.
  - unfold Review_from_relationship, User_from_node, Business_from_node,
      subscript, getitem.
    destruct rel as [eid props [u|] [b|]]; simpl; intros [= <-]; by right.
  - intros [= <-]. by left.
Qed.

Lemma node_column rec (b : Business) :
  (n ← record_node (Some rec) "b"; Business_from_node (Some n)) = inr b
  ↔ ∃ n, Record_nodes rec !! "b" = Some n ∧
         b = mkBusiness (default VNone (Node_properties n !! "externalID"))
                        (default VNone (Node_properties n !! "name"))
                        (default VNone (Node_properties n !! "description")).
Proof.
  unfold record_node, mbind, result_bind.
  destruct (Record_nodes rec !! "b") as [n|]; simpl.
  - unfold Business_from_node, subscript, getitem. simpl. split.
    + intros [= <-]. by exists n.
    + by intros (? & [= <-] & ->).
  - split; [done|]. by intros (? & [=] & _).
Qed.

Lemma node_column_raises rec (e : exn) :
  (n ← record_node (Some rec) "b"; Business_from_node (Some n)) = inl e →
  e = KeyError "b".
Proof.
  unfold record_node, mbind, result_bind.
  destruct (Record_nodes rec !! "b") as [n|]; simpl; [done|]. by intros [= <-].
Qed.

Lemma Forall2_iff {A B} (P Q : A → B → Prop) l k :
  (∀ x y, P x y ↔ Q x y) → Forall2 P l k ↔ Forall2 Q l k.
Proof.
  intros HPQ. split; intros HF; eapply Forall2_impl; try exact HF;
    intros x y; apply HPQ.
Qed.

(** X7.  The two DAO reads answer record by record and all or nothing, and
    a missing property never makes them fail.  [get_reviews_of_businesses]
    returns exactly when every record of the query result has a
    relationship in column [r] with both its end points; the list then
    holds one review per record, in record order, built from the
    relationship and its end points alone — columns [b] and [u] of the
    record are not read — with [None] for each property that is not
    there.  Otherwise the whole read raises [KeyError] for the column or
    [TypeError] for the missing end point.  Likewise [get_businesses], with
    column [b]: it can only raise [KeyError] for the column. *)
Theorem reads_convert_every_record (self : Neo4jDAO) (st : St) :
  let prop (m : gmap string PyVal) (key : string) := default VNone (m !! key) in
  let business_of (n : Node) :=
    mkBusiness (prop (Node_properties n) "externalID")
               (prop (Node_properties n) "name")
               (prop (Node_properties n) "description") in
  let user_of (n : Node) :=
    mkUser (prop (Node_properties n) "externalID")
           (prop (Node_properties n) "name")
           (prop (Node_properties n) "email") in
  let review_of (rec : Record_) (rv : Review) :=
    ∃ rel u b,
      Record_relationships rec !! "r" = Some rel ∧
      start_node rel = Some u ∧ end_node rel = Some b ∧
      rv = mkReview (VStr (element_id rel))
             (prop (Relationship_properties rel) "rating")
             (prop (Relationship_properties rel) "comment")
             (user_of u) (business_of b) in
  (∀ ids records w,
     tx_run (driver (service self)) READ
       "MATCH (b:Business)<-[r:REVIEWED]-(u:User) WHERE b.externalID in $ids RETURN b, r, u"
       (Some [("ids", PList ids)]) (world st) = (records, w) →
     (∀ reviews,
        (get_reviews_of_businesses tx_run self ids st).1 = inr reviews
        ↔ Forall2 review_of records reviews) ∧
     ((∃ reviews, (get_reviews_of_businesses tx_run self ids st).1 = inr reviews)
      ↔ Forall (λ rec, ∃ rel, Record_relationships rec !! "r" = Some rel ∧
                              is_Some (start_node rel) ∧ is_Some (end_node rel))
               records) ∧
     (∀ e, (get_reviews_of_businesses tx_run self ids st).1 = inl e →
           e = KeyError "r" ∨ e = TypeError)) ∧
  (∀ records w,
     tx_run (driver (service self)) READ "MATCH (b:Business) RETURN b" None (world st)
       = (records, w) →
     (∀ businesses,
        (get_businesses tx_run self st).1 = inr businesses
        ↔ Forall2 (λ rec b, ∃ n, Record_nodes rec !! "b" = Some n ∧ b = business_of n)
                  records businesses) ∧
     ((∃ businesses, (get_businesses tx_run self st).1 = inr businesses)
      ↔ Forall (λ rec, is_Some (Record_nodes rec !! "b")) records) ∧
     (∀ e, (get_businesses tx_run self st).1 = inl e → e = KeyError "b")).
Proof.
  intros prop business_of user_of review_of. split.
  - intros ids records w Hrun.
    assert (Hfst : (get_reviews_of_businesses tx_run self ids st).1
                   = mapM (λ r, rel ← record_relationship (Some r) "r";
                                Review_from_relationship rel) records).
    { unfold get_reviews_of_businesses, session_read, mbind at 1, M_bind.
      rewrite Hrun. by destruct (mapM _ records). }
    rewrite Hfst. split; [|split].
    + intros reviews. rewrite mapM_inr. apply Forall2_iff.
      intros rec rv. apply relationship_column.
    + rewrite mapM_returns. apply Forall_iff. intros rec. split.
      * intros [rv Hrv]. apply relationship_column in Hrv
          as (rel & u & b & Hrel & Hu & Hb & _).
        exists rel. rewrite Hu, Hb. by repeat split.
      * intros (rel & Hrel & [u Hu] & [b Hb]). eexists.
        apply relationship_column. by exists rel, u, b.
    + intros e He. apply mapM_inl in He as (rec & _ & He).
      by apply relationship_column_raises in He.
  - intros records w Hrun.
    assert (Hfst : (get_businesses tx_run self st).1
                   = mapM (λ r, b ← record_node (Some r) "b";
                                Business_from_node (Some b)) records).
    { unfold get_businesses, session_read, mbind at 1, M_bind.
      rewrite Hrun. by destruct (mapM _ records). }
    rewrite Hfst. split; [|split].
    + intros businesses. rewrite mapM_inr. apply Forall2_iff.
      intros rec b. apply node_column.
    + rewrite mapM_returns. apply Forall_iff. intros rec. split.
      * intros [b Hb]. apply node_column in Hb as (n & Hn & _). by exists n.
      * intros [n Hn]. eexists. apply node_column. by exists n.
    + intros e He. apply mapM_inl in He as (rec & _ & He).
      by apply node_column_raises in He.
Qed.

End dao_properties.

Section dao_reads_witness.
Import Neo4j.

Lemma reads_convert_every_record_witness :
  (get_reviews_of_businesses Demo.tx_run (Neo4jDAO_init Demo.settings None)
     [VStr "joes"] Demo.sparse_st).1
  = inr [Demo.unrated_review; Demo.emma_review].
Proof.
  assert (Hrun :
    Demo.tx_run (driver (service (Neo4jDAO_init Demo.settings None))) READ
      "MATCH (b:Business)<-[r:REVIEWED]-(u:User) WHERE b.externalID in $ids RETURN b, r, u"
      (Some [("ids", PList [VStr "joes"])]) (world Demo.sparse_st)
    = (Demo.row_of <$> [Demo.unrated; Demo.emma_on_joes], world Demo.sparse_st))
    by (vm_compute; reflexivity).
  destruct (reads_convert_every_record Demo.tx_run
              (Neo4jDAO_init Demo.settings None) Demo.sparse_st) as [Hreviews _].
  destruct (Hreviews [VStr "joes"] _ _ Hrun) as [Hiff _].
  apply Hiff. constructor; [|constructor; [|constructor]].
  - exists Demo.unrated, Demo.nobody, Demo.joes_id_only.
    split; [reflexivity|]. split; [reflexivity|]. split; [reflexivity|].
    vm_compute. reflexivity.
  - exists Demo.emma_on_joes, Demo.emma_node, Demo.joes.
    split; [reflexivity|]. split; [reflexivity|]. split; [reflexivity|].
    vm_compute. reflexivity.
Defined.

End dao_reads_witness.

Section dao_writes.
Import Neo4j Neo4jErrors.
Context {World : Type}.
Variable tx_run :
  Driver → AccessMode → string → option (list (string * Param)) →
  World → list Record_ * World.



End dao_writes.

Section dao_writes_witness.
Import Neo4j Neo4jErrors.



End dao_writes_witness.

Section dao_errors.
Import Neo4j Neo4jErrors.
Context {World : Type}.
Variable tx_run :
  Driver → AccessMode → string → option (list (string * Param)) →
  World → list Record_ * World.




End dao_errors.

Section dao_errors_witness.
Import Neo4j Neo4jErrors.


End dao_errors_witness.

Section service_properties.
Import Neo4j.


End service_properties.

(** * Further properties of the wiring of loaders *)

Section graphene_fields.
Import Django Graphene GrapheneFields.







End graphene_fields.

Section context_builders.
Import Neo4j GraphdbUrls.


End context_builders.

Section ariadne_context.
Import Django AriadneUrls.

(** X13.  In the ariadne variant [get_context_value] builds the loaders of
    one request and of no other: it binds ["reviews_for_businesses"] and
    ["authors_for_reviews"] to two different loader objects that did not
    exist before, each a new [SyncDataLoader] over its batch function, and
    it leaves every loader of earlier requests as it was. *)
Theorem ariadne_context_has_new_loaders {Request : Type}
    (objects : ReviewManager) (request : Request) (s : gmap loc LoaderObj) :
  let built := get_context_value objects request s in
  ∃ l1 l2 : loc,
    l1 ≠ l2 ∧ s !! l1 = None ∧ s !! l2 = None ∧
    AriadneUrls.request built.1 = request ∧
    data_loaders built.1
      = {[ "reviews_for_businesses" := l1; "authors_for_reviews" := l2 ]} ∧
    built.2 !! l1
      = Some (ReviewsForBusinesses
                (SyncDataLoader.SyncDataLoader (reviews_batch objects))) ∧
    built.2 !! l2
      = Some (AuthorsForReviews
                (SyncDataLoader.SyncDataLoader (authors_batch objects))) ∧
    ∀ l, is_Some (s !! l) → built.2 !! l = s !! l.
Proof.
  intros built. subst built. unfold get_context_value. simpl.
  set (l1 := fresh (dom s)).
  set (s1 := <[l1 := ReviewsForBusinesses
                       (SyncDataLoader.SyncDataLoader (reviews_batch objects))]> s).
  set (l2 := fresh (dom s1)).
  assert (Hl1 : s !! l1 = None) by (apply not_elem_of_dom, is_fresh).
  assert (Hl2 : s1 !! l2 = None) by (apply not_elem_of_dom, is_fresh).
  assert (Hne : l1 ≠ l2).
  { intros Heq. rewrite <- Heq in Hl2. unfold s1 in Hl2.
    by rewrite lookup_insert_eq in Hl2. }
  assert (Hl2' : s !! l2 = None)
    by (unfold s1 in Hl2; by rewrite lookup_insert_ne in Hl2).
  exists l1, l2. split; [done|]. split; [done|]. split; [done|].
  split; [done|]. split; [done|].
  split; [by unfold s1; rewrite lookup_insert_ne, lookup_insert_eq|].
  split; [by rewrite lookup_insert_eq|].
  intros l Hl. unfold s1. rewrite !lookup_insert_ne; [done|..].
  - intros <-. rewrite Hl1 in Hl. by destruct Hl.
  - intros <-. rewrite Hl2' in Hl. by destruct Hl.
Qed.

End ariadne_context.
